(** * Learning-activity statements for assignments

    A shallow embedding of [lib/statements/assignment.js]: the five event
    builders [create], [view], [submit], [grade] and [feedback], each of which
    validates the metadata of a statement against a rule table and then hands
    a descriptor (verb, xAPI template, Caliper template) to the statement
    processor.

    JavaScript values are an inductive type, objects are association lists in
    insertion order, numbers are IEEE doubles.  The calls a builder makes
    (identifier derivation, entity rendering, transport, callback) are logged
    by a writer monad, so that "what was invoked, and how often" is a property
    of the returned trace. *)

From Stdlib Require Import List String Ascii Bool Lia.
From Stdlib Require Import Floats.PrimFloat.
Import ListNotations.

Local Open Scope string_scope.
Local Open Scope list_scope.
#[local] Set Warnings "-register-all,-inexact-float".

(** ** Controlled vocabulary

    [require('../verbs')], [require('../activitytypes')] and the three
    caliperjs tables are static lookup data.  Only the keys the builders use
    are listed; each key is an opaque term. *)

Module VERBS.
Inductive t := CREATED | VIEWED | SUBMITTED | SCORED | COMMENTED.
End VERBS.

Module ACTIVITY_TYPES.
Inductive t := ASSESSMENT.
End ACTIVITY_TYPES.

Module CaliperEventType.
Inductive t := ASSESSMENT | VIEWED.
End CaliperEventType.

Module CaliperDigitalResourceType.
Inductive t := ASSIGNABLE_DIGITAL_RESOURCE.
End CaliperDigitalResourceType.

Module CaliperEntityType.
Inductive t := ATTEMPT | RESULT | PERSON.
End CaliperEntityType.

Inductive term :=
| Verb (v : VERBS.t)
| ActivityTypeId (a : ACTIVITY_TYPES.t)
| EventType (e : CaliperEventType.t)
| DigitalResourceType (r : CaliperDigitalResourceType.t)
| EntityType (e : CaliperEntityType.t).

(** ** JavaScript values *)

Inductive value :=
| VUndefined
| VNull
| VBool (b : bool)
| VNum (x : float)
| VStr (s : string)
| VDate (time : float)
| VTerm (t : term)
| VArr (items : list value)
| VObj (fields : list (string * value)).

(** An object literal: keys in the order they are written. *)
Definition obj := list (string * value).

(** [lookup k o] is the own property [k] of [o], if [o] has one. *)
Fixpoint lookup (k : string) (o : obj) : option value :=
  match o with
  | [] => None
  | (k', v) :: rest => if String.eqb k k' then Some v else lookup k rest
  end.

(** [o.k]: reading a property that is not there gives [undefined]. *)
Definition get (k : string) (o : obj) : value :=
  match lookup k o with
  | Some v => v
  | None => VUndefined
  end.

(** Follow a path of keys through nested objects. *)
Fixpoint path (ks : list string) (v : value) : option value :=
  match ks with
  | [] => Some v
  | k :: rest =>
      match v with
      | VObj o =>
          match lookup k o with
          | Some v' => path rest v'
          | None => None
          end
      | _ => None
      end
  end.

(** ToBoolean, as used by [if (statement.metadata.grade_max)]. *)
Definition truthy (v : value) : bool :=
  match v with
  | VUndefined | VNull => false
  | VBool b => b
  | VNum x => negb (is_zero x || is_nan x)
  | VStr s => negb (String.eqb s "")
  | VDate _ | VTerm _ | VArr _ | VObj _ => true
  end.

(** The [/] operator on two numbers.  The builders only divide metadata that
    validation has already required to be numbers (see
    [grade_operands_numeric]); any other operand pair is mapped to NaN. *)
Definition js_div (a b : value) : value :=
  match a, b with
  | VNum x, VNum y => VNum (x / y)
  | _, _ => VNum nan
  end.

(** A value is absent when it is [undefined] or [null]. *)
Definition is_absent (v : value) : bool :=
  match v with
  | VUndefined | VNull => true
  | _ => false
  end.

(** Drop the attributes of one object whose value is absent. *)
Definition prune_fields (o : obj) : obj :=
  filter (fun kv => negb (is_absent (snd kv))) o.

(** Drop absent attributes at every depth of nested objects. *)
Fixpoint prune (v : value) : value :=
  match v with
  | VObj o =>
      VObj ((fix go (o : obj) : obj :=
               match o with
               | [] => []
               | (k, x) :: rest =>
                   if is_absent x then go rest else (k, prune x) :: go rest
               end) o)
  | _ => v
  end.

Definition prune_deep_fields : obj -> obj :=
  fix go (o : obj) : obj :=
    match o with
    | [] => []
    | (k, x) :: rest =>
        if is_absent x then go rest else (k, prune x) :: go rest
    end.


(** ** Events, statements and descriptors *)

Record config := { platform : value }.

Record statement := {
  actor : value;
  timestamp : value;
  metadata : obj
}.

(** One entry of a rule table: ['type'] and ['required']. *)
Inductive field_type := string_t | number_t | date_t | uri_t | array_t.

Record rule := { type : field_type; required : bool }.

Definition rules := list (string * rule).

Inductive reason := missing | wrong_type.

Record validation_error := {
  field : string;
  why : reason;
  expected : field_type
}.

Inductive error :=
| ValidationError (e : validation_error)
| TransportError (e : value).

(** What the transport reports back. *)
Inductive outcome :=
| Failed (e : value)
| Delivered (result : value).

(** The third argument of [processStatement]. *)
Record descriptor := {
  verb : VERBS.t;
  XAPI : obj;
  CALIPER : obj
}.

(** What the builders rely on without looking inside: the hash behind
    [generateUuid], the accessors on actors and timestamps, the syntax checks
    of the validator for URIs and dates, and the transport.  Each is a
    function that returns; everything below is stated for any choice of
    them. *)
Class Collaborators := {
  deriveId : value -> VERBS.t -> list value -> string;
  userId : value -> value;
  toDate : value -> value;
  isUri : string -> bool;
  isDate : value -> bool;
  send : value -> value -> outcome
}.

(** ** The call log *)

Inductive call :=
| DeriveId (platform : value) (v : VERBS.t) (parts : list value)
| RenderEntity (attributes extensions : obj)
| RenderPerson (actor : value)
| Send (flat structured : value)
| Callback (err : option error) (result : option value).

Definition M (A : Type) : Type := list call * A.

Definition ret {A} (a : A) : M A := ([], a).

Definition bind {A B} (m : M A) (f : A -> M B) : M B :=
  let (t1, a) := m in
  let (t2, b) := f a in
  (t1 ++ t2, b).

Definition log (c : call) : M unit := ([c], tt).

Definition trace {A} (m : M A) : list call := fst m.

Declare Scope js_scope.
Delimit Scope js_scope with js.
Notation "x <- c1 ;; c2" := (bind c1 (fun x => c2))
  (at level 100, c1 at next level, right associativity) : js_scope.
Notation "c1 ;; c2" := (bind c1 (fun _ => c2))
  (at level 100, right associativity) : js_scope.
Local Open Scope js_scope.

(** [callback(err, result)]: one invocation of the completion callback of the
    call.  The caller is taken to have passed one. *)
Definition callback (err : option error) (result : option value) : M unit :=
  log (Callback err result).

Definition is_derivation (c : call) : bool :=
  match c with DeriveId _ _ _ => true | _ => false end.

Definition is_rendering (c : call) : bool :=
  match c with RenderEntity _ _ | RenderPerson _ => true | _ => false end.

(** The callback invocations of a run, in order. *)
Definition callbacks (t : list call) : list (option error * option value) :=
  flat_map (fun c => match c with Callback e r => [(e, r)] | _ => [] end) t.

(** The statement pairs handed to the transport, in order. *)
Definition sent (t : list call) : list (value * value) :=
  flat_map (fun c => match c with Send f s => [(f, s)] | _ => [] end) t.

(** ** StatementUtil ([require('../util')]) *)

Module StatementUtil.

(** A field counts as supplied unless it is absent, [null] or the empty
    string. *)
Definition present (v : value) : bool :=
  match v with
  | VUndefined | VNull => false
  | VStr s => negb (String.eqb s "")
  | _ => true
  end.

(** Type conformance of a supplied value: text, numeric, parseable as a
    date, syntactically valid absolute URI, ordered sequence. *)
Definition conforms `{Collaborators} (t : field_type) (v : value) : bool :=
  match t, v with
  | string_t, VStr _ => true
  | number_t, VNum x => negb (is_nan x)
  | date_t, _ => isDate v
  | uri_t, VStr s => isUri s
  | array_t, VArr _ => true
  | _, _ => false
  end.

(** The check of one declared field. *)
Definition check `{Collaborators} (k : string) (r : rule) (m : obj)
  : option validation_error :=
  let v := get k m in
  if present v then
    if conforms (type r) v then None
    else Some {| field := k; why := wrong_type; expected := type r |}
  else
    if required r then
      Some {| field := k; why := missing; expected := type r |}
    else None.

Fixpoint check_all `{Collaborators} (rs : rules) (m : obj)
  : option validation_error :=
  match rs with
  | [] => None
  | (k, r) :: rest =>
      match check k r m with
      | Some e => Some e
      | None => check_all rest m
      end
  end.

(** Modelled from the spec: [StatementUtil.validate], defined in
    [lib/util.js] and not in [assignment.js].  Contract 4.1: the fields of
    the rule table are checked in declared order; a required field that is
    absent, [null] or the empty string fails as missing; a supplied field
    that does not conform to its declared type fails as wrong type; the first
    failure is returned, [None] when every declared field passes; metadata
    fields outside the table are not looked at; no side effects. *)
Definition validate `{Collaborators}
  (c : config) (s : statement) (rs : rules) : option validation_error :=
  check_all rs (metadata s).

(** Modelled from the spec: [StatementUtil.generateDate], defined in
    [lib/util.js]; it is the collaborator [toDate]. *)
Definition generateDate `{Collaborators} (t : value) : value := toDate t.

Module XAPI.

(** Modelled from the spec: [StatementUtil.XAPI.getUserId], defined in
    [lib/util.js]: the accessor the flat format uses to obtain the user
    identifier of an actor; it is the collaborator [userId]. *)
Definition getUserId `{Collaborators} (a : value) : value := userId a.

(** Modelled from the spec: [StatementUtil.XAPI.generateUuid], defined in
    [lib/util.js]: the Identifier Deriver of 4.2, a function of the platform,
    the verb and the ordered parts.  Each use is logged. *)
Definition generateUuid `{Collaborators}
  (p : value) (v : VERBS.t) (parts : list value) : M value :=
  log (DeriveId p v parts) ;;
  ret (VStr (deriveId p v parts)).

End XAPI.

Module Caliper.

(** Modelled from the spec: [StatementUtil.Caliper.generateEntity], defined
    in [lib/util.js]: the entity renderer of 4.3.  The attributes, then the
    extensions merged in, keeping only those whose value is not absent.
    Each use is logged. *)
Definition generateEntity (attributes extensions : obj) : M value :=
  log (RenderEntity attributes extensions) ;;
  ret (VObj (prune_fields (attributes ++ extensions))).

(** Modelled from the spec: [StatementUtil.Caliper.generatePerson], defined
    in [lib/util.js]: the person renderer of 4.3: the person kind and the
    user identifier of the actor, the same one the flat format reads, pruned
    like any entity.  Each use is logged. *)
Definition generatePerson `{Collaborators} (a : value) : M value :=
  log (RenderPerson a) ;;
  ret (VObj (prune_fields
               [("type", VTerm (EntityType CaliperEntityType.PERSON));
                ("id", XAPI.getUserId a)])).

End Caliper.

(** The parts listed under ['uuid'] of the xAPI template. *)
Definition parts_of (v : value) : list value :=
  match v with
  | VArr items => items
  | _ => []
  end.

(** Modelled from the spec: step 3 of 4.4.  The flat-format payload is the
    envelope (derived identifier, actor, verb, timestamp) and the object and
    result of the template; absent optional values propagate as absence, so
    they are pruned at every depth. *)
Definition flat_payload (id : value) (s : statement) (d : descriptor) : value :=
  prune (VObj [("id", id);
               ("actor", actor s);
               ("verb", VTerm (Verb (verb d)));
               ("timestamp", timestamp s);
               ("object", get "object" (XAPI d));
               ("result", get "result" (XAPI d))]).

(** Modelled from the spec: step 4 of 4.4.  The structured-format payload is
    the event-type tag, the envelope (person, verb, timestamp) and the
    object, generated and target entities of the template, absent ones
    pruned. *)
Definition structured_payload (person : value) (s : statement) (d : descriptor)
  : value :=
  VObj (prune_fields
          [("type", get "type" (CALIPER d));
           ("actor", person);
           ("action", VTerm (Verb (verb d)));
           ("eventTime", timestamp s);
           ("object", get "object" (CALIPER d));
           ("generated", get "generated" (CALIPER d));
           ("target", get "target" (CALIPER d))]).

(** Modelled from the spec: step 5 of 4.4.  Hand both payloads to the
    transport and relay its outcome to the callback. *)
Definition dispatch `{Collaborators} (flat structured : value) : M unit :=
  log (Send flat structured) ;;
  match send flat structured with
  | Failed e => callback (Some (TransportError e)) None
  | Delivered result => callback None (Some result)
  end.

(** Modelled from the spec: [StatementUtil.processStatement], defined in
    [lib/util.js].  Steps 1 to 5 of 4.4: derive the primary identifier from
    the platform, the verb and the template's parts; build the flat payload;
    build the structured payload; hand both to the transport; invoke the
    callback with the transport's outcome. *)
Definition processStatement `{Collaborators}
  (c : config) (s : statement) (d : descriptor) : M unit :=
  id <- XAPI.generateUuid (platform c) (verb d) (parts_of (get "uuid" (XAPI d))) ;;
  person <- Caliper.generatePerson (actor s) ;;
  dispatch (flat_payload id s d) (structured_payload person s d).

End StatementUtil.

(** ** The builders of [lib/statements/assignment.js] *)

Module Assignment.

Import StatementUtil.

Definition submissions_types : string :=
  "https://canvas.instructure.com/xapi/assignments/submissions_types".

(** *** [create]: a user creates a new assignment *)

Definition create_rules : rules :=
  [("id", {| type := uri_t; required := true |});
   ("title", {| type := string_t; required := true |});
   ("description", {| type := string_t; required := false |});
   ("due_at", {| type := date_t; required := false |});
   ("max_points", {| type := number_t; required := false |});
   ("submission_types", {| type := array_t; required := false |})].

Definition create_descriptor (c : config) (s : statement) : M descriptor :=
  let m := metadata s in
  object <- Caliper.generateEntity
              [("type", VTerm (DigitalResourceType
                          CaliperDigitalResourceType.ASSIGNABLE_DIGITAL_RESOURCE));
               ("id", get "id" m);
               ("name", get "title" m);
               ("description", get "description" m);
               ("dateToSubmit", get "due_at" m);
               ("maxScore", get "max_points" m)]
              [(submissions_types, get "submission_types" m)] ;;
  ret {| verb := VERBS.CREATED;
         XAPI :=
           [("uuid", VArr [get "id" m]);
            ("object",
              VObj [("id", get "id" m);
                    ("type", VTerm (ActivityTypeId ACTIVITY_TYPES.ASSESSMENT));
                    ("name", get "title" m);
                    ("description", get "description" m);
                    (submissions_types, get "submission_types" m)])];
         CALIPER :=
           [("type", VTerm (EventType CaliperEventType.ASSESSMENT));
            ("object", object)] |}.

Definition create `{Collaborators} (c : config) (s : statement) : M unit :=
  match validate c s create_rules with
  | Some validationError => callback (Some (ValidationError validationError)) None
  | None =>
      d <- create_descriptor c s ;;
      processStatement c s d
  end.

(** *** [view]: a user views an assignment *)

Definition view_rules : rules :=
  [("assignment", {| type := uri_t; required := true |})].

Definition view_descriptor `{Collaborators} (c : config) (s : statement)
  : M descriptor :=
  let m := metadata s in
  xapi_object <- XAPI.generateUuid (platform c) VERBS.CREATED [get "assignment" m] ;;
  object <- Caliper.generateEntity
              [("type", VTerm (DigitalResourceType
                          CaliperDigitalResourceType.ASSIGNABLE_DIGITAL_RESOURCE));
               ("id", get "assignment" m)]
              [] ;;
  ret {| verb := VERBS.VIEWED;
         XAPI :=
           [("uuid", VArr [timestamp s; get "assignment" m;
                           XAPI.getUserId (actor s)]);
            ("object", xapi_object)];
         CALIPER :=
           [("type", VTerm (EventType CaliperEventType.VIEWED));
            ("object", object)] |}.

Definition view `{Collaborators} (c : config) (s : statement) : M unit :=
  match validate c s view_rules with
  | Some validationError => callback (Some (ValidationError validationError)) None
  | None =>
      d <- view_descriptor c s ;;
      processStatement c s d
  end.

(** *** [submit]: a user submits an assignment submission *)

Definition submit_rules : rules :=
  [("id", {| type := uri_t; required := true |});
   ("assignment", {| type := uri_t; required := true |});
   ("submission", {| type := string_t; required := false |})].

Definition submit_descriptor `{Collaborators} (c : config) (s : statement)
  : M descriptor :=
  let m := metadata s in
  xapi_object <- XAPI.generateUuid (platform c) VERBS.CREATED [get "assignment" m] ;;
  object <- Caliper.generateEntity
              [("type", VTerm (DigitalResourceType
                          CaliperDigitalResourceType.ASSIGNABLE_DIGITAL_RESOURCE));
               ("id", get "assignment" m)]
              [] ;;
  person <- Caliper.generatePerson (actor s) ;;
  generated <- Caliper.generateEntity
                 [("type", VTerm (EntityType CaliperEntityType.ATTEMPT));
                  ("id", get "id" m);
                  ("description", get "submission" m);
                  ("assignable", get "assignment" m);
                  ("endedAtTime", generateDate (timestamp s));
                  ("actor", person)]
                 [] ;;
  ret {| verb := VERBS.SUBMITTED;
         XAPI :=
           [("uuid", VArr [get "id" m]);
            ("object", xapi_object);
            ("result", VObj [("completion", VBool true);
                             ("response", get "submission" m)])];
         CALIPER :=
           [("type", VTerm (EventType CaliperEventType.ASSESSMENT));
            ("object", object);
            ("generated", generated)] |}.

Definition submit `{Collaborators} (c : config) (s : statement) : M unit :=
  match validate c s submit_rules with
  | Some validationError => callback (Some (ValidationError validationError)) None
  | None =>
      d <- submit_descriptor c s ;;
      processStatement c s d
  end.

(** *** [grade]: a user grades an assignment submission *)

Definition grade_rules : rules :=
  [("id", {| type := uri_t; required := true |});
   ("assignment", {| type := uri_t; required := true |});
   ("grade", {| type := number_t; required := true |});
   ("grade_min", {| type := number_t; required := false |});
   ("grade_max", {| type := number_t; required := false |})].

(** [var scaled_score = null; if (grade_max) { scaled_score = grade / grade_max; }] *)
Definition scaled_score (s : statement) : value :=
  let m := metadata s in
  if truthy (get "grade_max" m)
  then js_div (get "grade" m) (get "grade_max" m)
  else VNull.

Definition grade_descriptor `{Collaborators} (c : config) (s : statement)
  : M descriptor :=
  let m := metadata s in
  let scaled_score := scaled_score s in
  xapi_object <- XAPI.generateUuid (platform c) VERBS.SUBMITTED [get "id" m] ;;
  object <- Caliper.generateEntity
              [("type", VTerm (EntityType CaliperEntityType.ATTEMPT));
               ("id", get "id" m)]
              [] ;;
  person <- Caliper.generatePerson (actor s) ;;
  generated <- Caliper.generateEntity
                 [("type", VTerm (EntityType CaliperEntityType.RESULT));
                  ("assignable", get "assignment" m);
                  ("totalScore", get "grade" m);
                  ("normalScore", scaled_score);
                  ("scoredBy", person)]
                 [] ;;
  ret {| verb := VERBS.SCORED;
         XAPI :=
           [("uuid", VArr [get "id" m]);
            ("object", xapi_object);
            ("result",
              VObj [("score",
                      VObj [("raw", get "grade" m);
                            ("min", get "grade_min" m);
                            ("max", get "grade_max" m);
                            ("scaled", scaled_score)])])];
         CALIPER :=
           [("type", VStr "");
            ("object", object);
            ("generated", generated)] |}.

Definition grade `{Collaborators} (c : config) (s : statement) : M unit :=
  match validate c s grade_rules with
  | Some validationError => callback (Some (ValidationError validationError)) None
  | None =>
      d <- grade_descriptor c s ;;
      processStatement c s d
  end.

(** *** [feedback]: a user comments on an assignment submission *)

Definition feedback_rules : rules :=
  [("id", {| type := uri_t; required := true |});
   ("submission", {| type := uri_t; required := true |});
   ("feedback", {| type := string_t; required := true |})].

Definition feedback_descriptor `{Collaborators} (c : config) (s : statement)
  : M descriptor :=
  let m := metadata s in
  xapi_object <- XAPI.generateUuid (platform c) VERBS.SUBMITTED [get "submission" m] ;;
  object <- Caliper.generateEntity
              [("id", get "id" m);
               ("description", get "feedback" m)]
              [] ;;
  target <- Caliper.generateEntity
              [("type", VTerm (EntityType CaliperEntityType.ATTEMPT));
               ("id", get "id" m)]
              [] ;;
  ret {| verb := VERBS.COMMENTED;
         XAPI :=
           [("uuid", VArr [get "id" m]);
            ("object", xapi_object);
            ("result", VObj [("response", get "feedback" m)])];
         CALIPER :=
           [("object", object);
            ("target", target)] |}.

Definition feedback `{Collaborators} (c : config) (s : statement) : M unit :=
  match validate c s feedback_rules with
  | Some validationError => callback (Some (ValidationError validationError)) None
  | None =>
      d <- feedback_descriptor c s ;;
      processStatement c s d
  end.

End Assignment.

(** ** Reading a run *)

(** The five exported operations, with the rule table and the descriptor
    each one declares. *)
Inductive operation := Create | View | Submit | Grade | Feedback.

Definition rules_of (op : operation) : rules :=
  match op with
  | Create => Assignment.create_rules
  | View => Assignment.view_rules
  | Submit => Assignment.submit_rules
  | Grade => Assignment.grade_rules
  | Feedback => Assignment.feedback_rules
  end.

Definition descriptor_of `{Collaborators} (op : operation)
  : config -> statement -> M descriptor :=
  match op with
  | Create => Assignment.create_descriptor
  | View => Assignment.view_descriptor
  | Submit => Assignment.submit_descriptor
  | Grade => Assignment.grade_descriptor
  | Feedback => Assignment.feedback_descriptor
  end.

Definition run `{Collaborators} (op : operation) : config -> statement -> M unit :=
  match op with
  | Create => Assignment.create
  | View => Assignment.view
  | Submit => Assignment.submit
  | Grade => Assignment.grade
  | Feedback => Assignment.feedback
  end.

(** The flat and the structured statement of a run that sent exactly one
    pair to the transport. *)
Definition flat_statement (m : M unit) : option value :=
  match sent (trace m) with
  | [(f, _)] => Some f
  | _ => None
  end.

Definition structured_statement (m : M unit) : option value :=
  match sent (trace m) with
  | [(_, s)] => Some s
  | _ => None
  end.

Definition flat_at (ks : list string) (m : M unit) : option value :=
  match flat_statement m with
  | Some f => path ks f
  | None => None
  end.

Definition structured_at (ks : list string) (m : M unit) : option value :=
  match structured_statement m with
  | Some s => path ks s
  | None => None
  end.

(** What the callback receives for an outcome of the transport. *)
Definition relay (o : outcome) : option error * option value :=
  match o with
  | Failed e => (Some (TransportError e), None)
  | Delivered result => (None, Some result)
  end.

(** The person a statement's actor renders to, and the two payloads the
    processor builds for a descriptor. *)
Definition person_of `{Collaborators} (a : value) : value :=
  snd (StatementUtil.Caliper.generatePerson a).

Definition primary_id `{Collaborators} (c : config) (d : descriptor) : string :=
  deriveId (platform c) (verb d) (StatementUtil.parts_of (get "uuid" (XAPI d))).

Definition flat_of `{Collaborators} (c : config) (s : statement) (d : descriptor)
  : value :=
  StatementUtil.flat_payload (VStr (primary_id c d)) s d.

Definition structured_of `{Collaborators} (s : statement) (d : descriptor) : value :=
  StatementUtil.structured_payload (person_of (actor s)) s d.

(** A declared field passes when it is supplied if required, and conforms to
    its declared type if supplied. *)
Definition passes `{Collaborators} (k : string) (r : rule) (m : obj) : Prop :=
  (required r = true -> StatementUtil.present (get k m) = true)
  /\ (StatementUtil.present (get k m) = true ->
      StatementUtil.conforms (type r) (get k m) = true).

(** ** A concrete set of collaborators, for running the builders *)

Module Demo.

Definition show (v : value) : string :=
  match v with
  | VStr s => s
  | VDate _ => "T"
  | _ => "?"
  end.

Definition verb_name (v : VERBS.t) : string :=
  match v with
  | VERBS.CREATED => "created"
  | VERBS.VIEWED => "viewed"
  | VERBS.SUBMITTED => "submitted"
  | VERBS.SCORED => "scored"
  | VERBS.COMMENTED => "commented"
  end.

#[export] Instance collaborators : Collaborators := {|
  deriveId := fun p v parts =>
    (show p ++ ":" ++ verb_name v ++ ":" ++ String.concat "," (map show parts))%string;
  userId := fun a => match a with VObj o => get "id" o | _ => VUndefined end;
  toDate := fun t => t;
  isUri := fun s => String.prefix "https://" s;
  isDate := fun v => match v with VDate _ => true | _ => false end;
  send := fun f s => Delivered (VObj [("flat", f); ("structured", s)])
|}.

(** A transport that always fails. *)
Definition failing : Collaborators := {|
  deriveId := @deriveId collaborators;
  userId := @userId collaborators;
  toDate := @toDate collaborators;
  isUri := @isUri collaborators;
  isDate := @isDate collaborators;
  send := fun _ _ => Failed (VStr "unreachable")
|}.

Definition acme : config := {| platform := VStr "acme" |}.

Definition u1 : value := VObj [("id", VStr "u1")].

Definition T : value := VDate 1700000000000.

Definition created : statement :=
  {| actor := u1; timestamp := T;
     metadata := [("id", VStr "https://x/a1"); ("title", VStr "Essay")] |}.

(** The same assignment, sent again later with other optional metadata. *)
Definition created_again : statement :=
  {| actor := u1; timestamp := VDate 1700000600000;
     metadata := [("id", VStr "https://x/a1"); ("title", VStr "Essay (v2)");
                  ("description", VStr "Five pages")] |}.

Definition viewed : statement :=
  {| actor := u1; timestamp := T;
     metadata := [("assignment", VStr "https://x/a1")] |}.

(** The same view, reported twice: the second report carries a field the
    builder does not declare. *)
Definition viewed_again : statement :=
  {| actor := u1; timestamp := T;
     metadata := [("assignment", VStr "https://x/a1"); ("referrer", VStr "feed")] |}.

Definition submitted : statement :=
  {| actor := u1; timestamp := T;
     metadata := [("id", VStr "https://x/s1");
                  ("assignment", VStr "https://x/a1")] |}.

Definition submitted_without_assignment : statement :=
  {| actor := u1; timestamp := T;
     metadata := [("id", VStr "https://x/s1")] |}.

Definition graded : statement :=
  {| actor := u1; timestamp := T;
     metadata := [("id", VStr "https://x/s1");
                  ("assignment", VStr "https://x/a1");
                  ("grade", VNum 45);
                  ("grade_max", VNum 50)] |}.

Definition graded_without_max : statement :=
  {| actor := u1; timestamp := T;
     metadata := [("id", VStr "https://x/s1");
                  ("assignment", VStr "https://x/a1");
                  ("grade", VNum 45)] |}.

Definition commented : statement :=
  {| actor := u1; timestamp := T;
     metadata := [("id", VStr "https://x/f1");
                  ("submission", VStr "https://x/s1");
                  ("feedback", VStr "Well argued")] |}.

End Demo.

(** ** Runs of the builders *)

Section Runs.

Context `{Collaborators}.

Import StatementUtil.

Lemma trace_bind {A B} (m : M A) (f : A -> M B) :
  trace (x <- m ;; f x) = trace m ++ trace (f (snd m)).
Proof.
  unfold trace, bind. destruct m as [t a]. cbn.
  destruct (f a) as [t' b]. reflexivity.
Qed.

Lemma trace_dispatch (f t : value) :
  trace (dispatch f t)
  = [Send f t; Callback (fst (relay (send f t))) (snd (relay (send f t)))].
Proof.
  unfold dispatch. rewrite trace_bind. cbn.
  destruct (send f t); reflexivity.
Qed.

Lemma trace_processStatement (c : config) (s : statement) (d : descriptor) :
  trace (processStatement c s d)
  = [DeriveId (platform c) (verb d) (parts_of (get "uuid" (XAPI d)));
     RenderPerson (actor s);
     Send (flat_of c s d) (structured_of s d);
     Callback (fst (relay (send (flat_of c s d) (structured_of s d))))
              (snd (relay (send (flat_of c s d) (structured_of s d))))].
Proof.
  unfold processStatement. rewrite !trace_bind. cbn [snd].
  rewrite trace_dispatch. reflexivity.
Qed.

(** Every builder is its validation followed by either the callback or the
    processor. *)
Lemma run_unfold (op : operation) (c : config) (s : statement) :
  run op c s
  = match validate c s (rules_of op) with
    | Some e => callback (Some (ValidationError e)) None
    | None => d <- descriptor_of op c s ;; processStatement c s d
    end.
Proof. destruct op; reflexivity. Qed.

Lemma trace_invalid (op : operation) (c : config) (s : statement) e :
  validate c s (rules_of op) = Some e ->
  trace (run op c s) = [Callback (Some (ValidationError e)) None].
Proof. intros Hv. rewrite run_unfold, Hv. reflexivity. Qed.

Lemma trace_valid (op : operation) (c : config) (s : statement) :
  validate c s (rules_of op) = None ->
  trace (run op c s)
  = trace (descriptor_of op c s)
    ++ trace (processStatement c s (snd (descriptor_of op c s))).
Proof. intros Hv. rewrite run_unfold, Hv. apply trace_bind. Qed.

(** Building a descriptor never reaches the transport or the callback. *)
Lemma descriptor_quiet (op : operation) (c : config) (s : statement) :
  sent (trace (descriptor_of op c s)) = []
  /\ callbacks (trace (descriptor_of op c s)) = [].
Proof. destruct op; split; reflexivity. Qed.

Lemma sent_app (t1 t2 : list call) : sent (t1 ++ t2) = sent t1 ++ sent t2.
Proof. unfold sent. apply flat_map_app. Qed.

Lemma callbacks_app (t1 t2 : list call) :
  callbacks (t1 ++ t2) = callbacks t1 ++ callbacks t2.
Proof. unfold callbacks. apply flat_map_app. Qed.

Lemma sent_valid (op : operation) (c : config) (s : statement) :
  validate c s (rules_of op) = None ->
  sent (trace (run op c s))
  = [(flat_of c s (snd (descriptor_of op c s)),
      structured_of s (snd (descriptor_of op c s)))].
Proof.
  intros Hv. rewrite (trace_valid _ _ _ Hv), sent_app.
  rewrite (proj1 (descriptor_quiet op c s)), trace_processStatement.
  reflexivity.
Qed.

Lemma flat_statement_valid (op : operation) (c : config) (s : statement) :
  validate c s (rules_of op) = None ->
  flat_statement (run op c s) = Some (flat_of c s (snd (descriptor_of op c s))).
Proof. intros Hv. unfold flat_statement. rewrite (sent_valid _ _ _ Hv). reflexivity. Qed.

Lemma structured_statement_valid (op : operation) (c : config) (s : statement) :
  validate c s (rules_of op) = None ->
  structured_statement (run op c s)
  = Some (structured_of s (snd (descriptor_of op c s))).
Proof.
  intros Hv. unfold structured_statement. rewrite (sent_valid _ _ _ Hv). reflexivity.
Qed.

End Runs.

(** ** The validator *)

Section Validator.

Context `{Collaborators}.

Import StatementUtil.

Lemma check_None_iff (k : string) (r : rule) (m : obj) :
  check k r m = None <-> passes k r m.
Proof.
  unfold check, passes.
  destruct (present (get k m)) eqn:Hp, (conforms (type r) (get k m)) eqn:Hc,
    (required r) eqn:Hr; cbn; split; try discriminate; try tauto;
    intros [H1 H2]; try (specialize (H1 eq_refl)); try (specialize (H2 eq_refl));
    discriminate.
Qed.

Lemma check_all_None_iff (rs : rules) (m : obj) :
  check_all rs m = None <-> forall k r, In (k, r) rs -> check k r m = None.
Proof.
  induction rs as [|[k0 r0] rest IH]; cbn.
  - split; [intros _ k r []| reflexivity].
  - destruct (check k0 r0 m) eqn:Hc.
    + split; [discriminate|].
      intros Hall. rewrite (Hall k0 r0 (or_introl eq_refl)) in Hc. discriminate.
    + rewrite IH. split.
      * intros Hall k r [E|Hin]; [inversion E; subst; exact Hc | auto].
      * intros Hall k r Hin. apply Hall. right. exact Hin.
Qed.

(** The error returned is that of the first declared field that fails. *)
Lemma check_all_Some_first (rs : rules) (m : obj) (e : validation_error) :
  check_all rs m = Some e ->
  exists pre k r post,
    rs = pre ++ (k, r) :: post
    /\ check_all pre m = None
    /\ check k r m = Some e.
Proof.
  induction rs as [|[k0 r0] rest IH]; cbn; [discriminate|].
  destruct (check k0 r0 m) eqn:Hc.
  - intros E. inversion E; subst.
    exists [], k0, r0, rest. repeat split; assumption.
  - intros Hrest. destruct (IH Hrest) as (pre & k & r & post & -> & Hpre & Hk).
    exists ((k0, r0) :: pre), k, r, post. repeat split; [|exact Hk].
    cbn. rewrite Hc. exact Hpre.
Qed.

(** What a failing check reports. *)
Lemma check_Some (k : string) (r : rule) (m : obj) (e : validation_error) :
  check k r m = Some e ->
  field e = k /\ expected e = type r
  /\ (why e = missing
      /\ required r = true /\ present (get k m) = false
      \/ why e = wrong_type
         /\ present (get k m) = true /\ conforms (type r) (get k m) = false).
Proof.
  unfold check.
  destruct (present (get k m)), (conforms (type r) (get k m)), (required r);
    intros E; inversion E; subst; cbn; auto 10.
Qed.

(** Only the declared fields of the metadata are read. *)
Lemma check_all_ext (rs : rules) (m m' : obj) :
  (forall k r, In (k, r) rs -> get k m' = get k m) ->
  check_all rs m' = check_all rs m.
Proof.
  induction rs as [|[k0 r0] rest IH]; cbn; [reflexivity|].
  intros Hagree. unfold check.
  rewrite (Hagree k0 r0 (or_introl eq_refl)).
  rewrite IH; [reflexivity|]. intros k r Hin. apply (Hagree k r). right. exact Hin.
Qed.

End Validator.

(** ** Properties of the validator *)

Section ValidatorProperties.

Context `{Collaborators}.

Import StatementUtil.

(** C3.  [validate] returns no error exactly when every declared field passes:
    a required field is supplied (not absent, [null] or the empty string), and
    a supplied declared field has its declared type.  Metadata outside the
    rule table is not read.  On failure the single error returned is that of
    the first field, in declared order, that does not pass; it names the
    field, the declared type, and whether the field was missing or of the
    wrong type. *)
Theorem validate_first_failure_or_none (c : config) (s : statement) (R : rules) :
  (validate c s R = None
   <-> forall k r, In (k, r) R -> passes k r (metadata s))
  /\ (forall s' : statement,
        (forall k r, In (k, r) R -> get k (metadata s') = get k (metadata s)) ->
        validate c s' R = validate c s R)
  /\ (forall e, validate c s R = Some e ->
        exists pre r post,
          R = pre ++ (field e, r) :: post
          /\ (forall k' r', In (k', r') pre -> passes k' r' (metadata s))
          /\ ~ passes (field e) r (metadata s)
          /\ expected e = type r
          /\ (why e = missing
              /\ required r = true
              /\ present (get (field e) (metadata s)) = false
              \/ why e = wrong_type
                 /\ present (get (field e) (metadata s)) = true
                 /\ conforms (type r) (get (field e) (metadata s)) = false)).
Proof.
  unfold validate. split; [|split].
  - rewrite check_all_None_iff. split; intros Hall k r Hin.
    + apply check_None_iff, Hall, Hin.
    + apply check_None_iff, Hall, Hin.
  - intros s' Hagree. apply check_all_ext, Hagree.
  - intros e He.
    destruct (check_all_Some_first _ _ _ He) as (pre & k & r & post & HR & Hpre & Hk).
    destruct (check_Some _ _ _ _ Hk) as (Hf & Hexp & Hwhy).
    subst k. exists pre, r, post.
    split; [exact HR|]. split; [|split; [|split; [exact Hexp | exact Hwhy]]].
    + intros k' r' Hin. apply check_None_iff.
      exact (proj1 (check_all_None_iff pre (metadata s)) Hpre k' r' Hin).
    + intros Hp. apply check_None_iff in Hp. rewrite Hp in Hk. discriminate.
Qed.

End ValidatorProperties.

(** ** Pruning *)

Arguments prune : simpl never.
Arguments prune_deep_fields : simpl never.
Arguments prune_fields : simpl never.

Section Pruning.

Lemma prune_VObj (o : obj) : prune (VObj o) = VObj (prune_deep_fields o).
Proof. reflexivity. Qed.

Lemma prune_fields_In (o : obj) (k : string) (v : value) :
  In (k, v) (prune_fields o) <-> In (k, v) o /\ is_absent v = false.
Proof.
  unfold prune_fields. rewrite filter_In. cbn.
  rewrite negb_true_iff. reflexivity.
Qed.

Lemma lookup_None_iff (k : string) (o : obj) :
  lookup k o = None <-> forall v, ~ In (k, v) o.
Proof.
  induction o as [|[k' x] rest IH]; cbn.
  - split; [intros _ v []| reflexivity].
  - destruct (String.eqb_spec k k') as [->|Hne].
    + split; [discriminate|]. intros Hno. destruct (Hno x). left. reflexivity.
    + rewrite IH. split.
      * intros Hno v [E|Hin]; [inversion E; congruence | exact (Hno v Hin)].
      * intros Hno v Hin. apply (Hno v). right. exact Hin.
Qed.

Lemma lookup_prune_fields_skip (k k' : string) (x : value) (rest : obj) :
  String.eqb k k' = false ->
  lookup k (prune_fields ((k', x) :: rest)) = lookup k (prune_fields rest).
Proof.
  intros Hne. unfold prune_fields. cbn.
  destruct (is_absent x); cbn; [reflexivity|]. rewrite Hne. reflexivity.
Qed.

Lemma lookup_prune_fields_hit (k : string) (x : value) (rest : obj) :
  lookup k (prune_fields ((k, x) :: rest))
  = if is_absent x then lookup k (prune_fields rest) else Some x.
Proof.
  unfold prune_fields. cbn.
  destruct (is_absent x); cbn; [reflexivity|]. rewrite String.eqb_refl. reflexivity.
Qed.

Lemma prune_deep_fields_cons (k : string) (x : value) (rest : obj) :
  prune_deep_fields ((k, x) :: rest)
  = if is_absent x then prune_deep_fields rest
    else (k, prune x) :: prune_deep_fields rest.
Proof. reflexivity. Qed.

Lemma lookup_prune_deep_skip (k k' : string) (x : value) (rest : obj) :
  String.eqb k k' = false ->
  lookup k (prune_deep_fields ((k', x) :: rest))
  = lookup k (prune_deep_fields rest).
Proof.
  intros Hne. rewrite prune_deep_fields_cons.
  destruct (is_absent x); cbn; [reflexivity|]. rewrite Hne. reflexivity.
Qed.

Lemma lookup_prune_deep_hit (k : string) (x : value) (rest : obj) :
  lookup k (prune_deep_fields ((k, x) :: rest))
  = if is_absent x then lookup k (prune_deep_fields rest) else Some (prune x).
Proof.
  rewrite prune_deep_fields_cons.
  destruct (is_absent x); cbn; [reflexivity|]. rewrite String.eqb_refl. reflexivity.
Qed.

(** Deep pruning leaves no absent attribute at the top of an object. *)
Lemma prune_deep_fields_present (o : obj) (k : string) (v : value) :
  In (k, v) (prune_deep_fields o) -> is_absent v = false.
Proof.
  induction o as [|[k' x] rest IH]; [intros []|].
  rewrite prune_deep_fields_cons. destruct (is_absent x) eqn:Hx; [exact IH|].
  intros [E|Hin]; [|exact (IH Hin)].
  inversion E; subst. destruct x; try discriminate; reflexivity.
Qed.

End Pruning.

(** Rewrite a lookup through a pruned literal object down to the key asked for. *)
Ltac lookup_pruned :=
  repeat first
    [ rewrite lookup_prune_fields_skip by reflexivity
    | rewrite lookup_prune_deep_skip by reflexivity
    | rewrite lookup_prune_fields_hit
    | rewrite lookup_prune_deep_hit ].

(** ** Payloads *)

Section Payloads.

Context `{Collaborators}.

Import StatementUtil.

Lemma flat_id (c : config) (s : statement) (d : descriptor) :
  path ["id"] (flat_of c s d) = Some (VStr (primary_id c d)).
Proof.
  unfold flat_of, flat_payload. rewrite prune_VObj. cbn [path].
  rewrite lookup_prune_deep_hit. reflexivity.
Qed.

Lemma flat_template (k : string) (ks : list string)
  (c : config) (s : statement) (d : descriptor) :
  k = "object" \/ k = "result" ->
  path (k :: ks) (flat_of c s d)
  = if is_absent (get k (XAPI d)) then None else path ks (prune (get k (XAPI d))).
Proof.
  intros [-> | ->]; unfold flat_of, flat_payload; rewrite prune_VObj; cbn [path];
    lookup_pruned; cbn [lookup];
    repeat match goal with |- context [if is_absent ?x then _ else _] =>
      destruct (is_absent x) end; reflexivity.
Qed.

Lemma structured_template (k : string) (ks : list string)
  (s : statement) (d : descriptor) :
  k = "type" \/ k = "object" \/ k = "generated" \/ k = "target" ->
  path (k :: ks) (structured_of s d)
  = if is_absent (get k (CALIPER d)) then None else path ks (get k (CALIPER d)).
Proof.
  intros [-> | [-> | [-> | ->]]]; unfold structured_of, structured_payload;
    cbn [path]; lookup_pruned; cbn [lookup];
    repeat match goal with |- context [if is_absent ?x then _ else _] =>
      destruct (is_absent x) end; reflexivity.
Qed.

(** What a passed validation says about one declared field. *)
Lemma valid_field (c : config) (s : statement) (rs : rules) (k : string) (r : rule) :
  validate c s rs = None -> In (k, r) rs -> passes k r (metadata s).
Proof.
  intros Hv Hin. apply check_None_iff.
  exact (proj1 (check_all_None_iff rs (metadata s)) Hv k r Hin).
Qed.

Lemma conforms_uri (v : value) :
  conforms uri_t v = true <-> exists u, v = VStr u /\ isUri u = true.
Proof.
  split.
  - destruct v; cbn; try discriminate. intros Hu. exists s. auto.
  - intros (u & -> & Hu). exact Hu.
Qed.

Lemma conforms_string (v : value) :
  conforms string_t v = true <-> exists t, v = VStr t.
Proof.
  split.
  - destruct v; cbn; try discriminate. intros _. exists s. reflexivity.
  - intros (t & ->). reflexivity.
Qed.

Lemma conforms_number (v : value) :
  conforms number_t v = true <-> exists x, v = VNum x /\ is_nan x = false.
Proof.
  split.
  - destruct v; cbn; try discriminate. rewrite negb_true_iff. intros Hx. exists x. auto.
  - intros (x & -> & Hx). cbn. rewrite Hx. reflexivity.
Qed.

Lemma conforms_array (v : value) :
  conforms array_t v = true <-> exists items, v = VArr items.
Proof.
  split.
  - destruct v; cbn; try discriminate. intros _. exists items. reflexivity.
  - intros (l & ->). reflexivity.
Qed.

Lemma valid_required_uri (c : config) (s : statement) (rs : rules) (k : string) :
  validate c s rs = None ->
  In (k, {| type := uri_t; required := true |}) rs ->
  exists u, get k (metadata s) = VStr u /\ isUri u = true.
Proof.
  intros Hv Hin. destruct (valid_field _ _ _ _ _ Hv Hin) as [Hreq Hty].
  apply conforms_uri. apply Hty, Hreq. reflexivity.
Qed.

Lemma valid_required_string (c : config) (s : statement) (rs : rules) (k : string) :
  validate c s rs = None ->
  In (k, {| type := string_t; required := true |}) rs ->
  exists t, get k (metadata s) = VStr t.
Proof.
  intros Hv Hin. destruct (valid_field _ _ _ _ _ Hv Hin) as [Hreq Hty].
  apply conforms_string. apply Hty, Hreq. reflexivity.
Qed.

Lemma valid_required_number (c : config) (s : statement) (rs : rules) (k : string) :
  validate c s rs = None ->
  In (k, {| type := number_t; required := true |}) rs ->
  exists x, get k (metadata s) = VNum x /\ is_nan x = false.
Proof.
  intros Hv Hin. destruct (valid_field _ _ _ _ _ Hv Hin) as [Hreq Hty].
  apply conforms_number. apply Hty, Hreq. reflexivity.
Qed.

(** The division in [grade] only ever sees numbers: [grade] is a required
    number, and a truthy [grade_max] that passed validation is a number. *)
Lemma grade_operands_numeric (c : config) (s : statement) :
  validate c s Assignment.grade_rules = None ->
  truthy (get "grade_max" (metadata s)) = true ->
  exists g m,
    get "grade" (metadata s) = VNum g
    /\ get "grade_max" (metadata s) = VNum m
    /\ Assignment.scaled_score s = VNum (g / m).
Proof.
  intros Hv Ht.
  destruct (valid_required_number c s _ "grade" Hv) as (g & Hg & _);
    [cbn; auto 10|].
  assert (Hin : In ("grade_max", {| type := number_t; required := false |})
                   Assignment.grade_rules) by (cbn; auto 10).
  destruct (valid_field _ _ _ _ _ Hv Hin) as [_ Hty].
  assert (Hp : present (get "grade_max" (metadata s)) = true).
  { destruct (get "grade_max" (metadata s)); cbn in *; congruence. }
  destruct (proj1 (conforms_number _) (Hty Hp)) as (m & Hm & _).
  exists g, m. unfold Assignment.scaled_score. rewrite Ht, Hg, Hm. auto.
Qed.

End Payloads.

(** ** Properties of the builders *)

(** View the five builders as instances of [run]. *)
Ltac as_runs :=
  repeat match goal with
    | |- context [Assignment.create ?c ?s] =>
        change (Assignment.create c s) with (run Create c s)
    | |- context [Assignment.view ?c ?s] =>
        change (Assignment.view c s) with (run View c s)
    | |- context [Assignment.submit ?c ?s] =>
        change (Assignment.submit c s) with (run Submit c s)
    | |- context [Assignment.grade ?c ?s] =>
        change (Assignment.grade c s) with (run Grade c s)
    | |- context [Assignment.feedback ?c ?s] =>
        change (Assignment.feedback c s) with (run Feedback c s)
    end.

Arguments Assignment.scaled_score : simpl never.

Section Builders.

Context `{Collaborators}.

Import StatementUtil Assignment.

Lemma flat_at_valid (op : operation) (ks : list string)
  (c : config) (s : statement) :
  validate c s (rules_of op) = None ->
  flat_at ks (run op c s) = path ks (flat_of c s (snd (descriptor_of op c s))).
Proof.
  intros Hv. unfold flat_at. rewrite (flat_statement_valid _ _ _ Hv).
  reflexivity.
Qed.

Lemma structured_at_valid (op : operation) (ks : list string)
  (c : config) (s : statement) :
  validate c s (rules_of op) = None ->
  structured_at ks (run op c s)
  = path ks (structured_of s (snd (descriptor_of op c s))).
Proof.
  intros Hv. unfold structured_at. rewrite (structured_statement_valid _ _ _ Hv).
  reflexivity.
Qed.

(** The score object of the flat statement and the result entity of the
    structured statement of a valid [grade] call. *)
Lemma grade_flat_score (k : string) (c : config) (s : statement) :
  validate c s grade_rules = None ->
  flat_at ["result"; "score"; k] (grade c s)
  = lookup k (prune_deep_fields
                [("raw", get "grade" (metadata s));
                 ("min", get "grade_min" (metadata s));
                 ("max", get "grade_max" (metadata s));
                 ("scaled", scaled_score s)]).
Proof.
  intros Hv. as_runs. rewrite (flat_at_valid Grade _ _ _ Hv).
  rewrite flat_template by auto. cbn.
  rewrite prune_VObj. cbn [path]. lookup_pruned. cbn.
  rewrite prune_VObj. cbn [path].
  destruct (lookup k _); reflexivity.
Qed.

Lemma grade_structured_result (k : string) (c : config) (s : statement) :
  validate c s grade_rules = None ->
  structured_at ["generated"; k] (grade c s)
  = lookup k (prune_fields
                [("type", VTerm (EntityType CaliperEntityType.RESULT));
                 ("assignable", get "assignment" (metadata s));
                 ("totalScore", get "grade" (metadata s));
                 ("normalScore", scaled_score s);
                 ("scoredBy", person_of (actor s))]).
Proof.
  intros Hv. as_runs. rewrite (structured_at_valid Grade _ _ _ Hv).
  rewrite structured_template by auto. cbn.
  destruct (lookup k _); reflexivity.
Qed.

(** C1.  A [grade] call that passes validation sends one statement pair.  When
    [grade_max] is a non-zero number, the score of the flat statement and the
    result entity of the structured statement both carry the normalized score
    [grade / grade_max].  When [grade_max] is absent, neither carries a
    normalized score at all: the attribute is omitted, while the raw score is
    still there. *)
Theorem grade_normalized_score (c : config) (s : statement) :
  validate c s grade_rules = None ->
  exists g,
    get "grade" (metadata s) = VNum g
    /\ flat_at ["result"; "score"; "raw"] (grade c s) = Some (VNum g)
    /\ structured_at ["generated"; "totalScore"] (grade c s) = Some (VNum g)
    /\ (forall m,
          get "grade_max" (metadata s) = VNum m -> is_zero m = false ->
          flat_at ["result"; "score"; "scaled"] (grade c s) = Some (VNum (g / m))
          /\ structured_at ["generated"; "normalScore"] (grade c s)
             = Some (VNum (g / m)))
    /\ (is_absent (get "grade_max" (metadata s)) = true ->
          flat_at ["result"; "score"; "scaled"] (grade c s) = None
          /\ structured_at ["generated"; "normalScore"] (grade c s) = None).
Proof.
  intros Hv.
  destruct (valid_required_number c s _ "grade" Hv) as (g & Hg & _);
    [cbn; auto 10|].
  exists g. split; [exact Hg|].
  rewrite !(grade_flat_score _ _ _ Hv), !(grade_structured_result _ _ _ Hv).
  rewrite Hg. lookup_pruned. cbn [is_absent].
  split; [reflexivity|]. split; [reflexivity|]. split.
  - intros m Hm Hz.
    assert (Hin : In ("grade_max", {| type := number_t; required := false |})
                     grade_rules) by (cbn; auto 10).
    destruct (valid_field _ _ _ _ _ Hv Hin) as [_ Hty].
    rewrite Hm in Hty. specialize (Hty eq_refl).
    apply conforms_number in Hty. destruct Hty as (m' & Em & Hnan).
    inversion Em; subst m'.
    assert (Hs : scaled_score s = VNum (g / m)).
    { assert (Ht : truthy (VNum m) = true)
        by (unfold truthy; rewrite Hz, Hnan; reflexivity).
      unfold scaled_score. rewrite Hg, Hm, Ht. reflexivity. }
    rewrite Hs. cbn [is_absent]. split; reflexivity.
  - intros Habs.
    assert (Hs : scaled_score s = VNull).
    { unfold scaled_score.
      destruct (get "grade_max" (metadata s)); cbn in *; try discriminate; reflexivity. }
    rewrite Hs. cbn [is_absent]. split; reflexivity.
Qed.

(** The identifier of the flat statement is derived from the platform, the
    verb and the parts the descriptor lists under ['uuid']. *)
Lemma flat_at_id (op : operation) (c : config) (s : statement) :
  validate c s (rules_of op) = None ->
  flat_at ["id"] (run op c s)
  = Some (VStr (primary_id c (snd (descriptor_of op c s)))).
Proof. intros Hv. rewrite (flat_at_valid _ _ _ _ Hv). apply flat_id. Qed.

(** The derivations of a valid run: those of the descriptor, then that of
    the primary identifier. *)
Lemma derivations_valid (op : operation) (c : config) (s : statement) :
  validate c s (rules_of op) = None ->
  filter is_derivation (trace (run op c s))
  = filter is_derivation (trace (descriptor_of op c s))
    ++ [DeriveId (platform c) (verb (snd (descriptor_of op c s)))
          (parts_of (get "uuid" (XAPI (snd (descriptor_of op c s)))))].
Proof.
  intros Hv. rewrite (trace_valid _ _ _ Hv), filter_app, trace_processStatement.
  reflexivity.
Qed.

(** C2.  Two [create] calls with the same configuration and the same
    [metadata.id], both passing validation, derive the same identifiers: the
    flat statements carry the same derived identifier, computed from the
    platform, the verb CREATED and the single part [metadata.id]; the
    structured statements carry the same caller-supplied identifier on their
    object entity; and the Identifier Deriver is invoked on the same inputs in
    both runs.  Nothing else of the statement (title, actor, timestamp)
    enters the identifier. *)
Theorem create_identifier_idempotent (c : config) (s1 s2 : statement) :
  get "id" (metadata s1) = get "id" (metadata s2) ->
  validate c s1 create_rules = None ->
  validate c s2 create_rules = None ->
  flat_at ["id"] (create c s1)
  = Some (VStr (deriveId (platform c) VERBS.CREATED [get "id" (metadata s1)]))
  /\ flat_at ["id"] (create c s2) = flat_at ["id"] (create c s1)
  /\ structured_at ["object"; "id"] (create c s1) = Some (get "id" (metadata s1))
  /\ structured_at ["object"; "id"] (create c s2)
     = structured_at ["object"; "id"] (create c s1)
  /\ filter is_derivation (trace (create c s1))
     = [DeriveId (platform c) VERBS.CREATED [get "id" (metadata s1)]]
  /\ filter is_derivation (trace (create c s2))
     = filter is_derivation (trace (create c s1)).
Proof.
  intros Hid Hv1 Hv2.
  assert (Hobj : forall s, validate c s create_rules = None ->
            structured_at ["object"; "id"] (run Create c s)
            = Some (get "id" (metadata s))).
  { intros s Hv. rewrite (structured_at_valid Create _ _ _ Hv).
    rewrite structured_template by auto. cbn.
    destruct (valid_required_uri c s _ "id" Hv) as (u & Hu & _); [cbn; auto 10|].
    lookup_pruned. rewrite Hu. reflexivity. }
  as_runs. rewrite (flat_at_id Create _ _ Hv1), (flat_at_id Create _ _ Hv2).
  rewrite (Hobj _ Hv1), (Hobj _ Hv2).
  rewrite (derivations_valid Create _ _ Hv1), (derivations_valid Create _ _ Hv2).
  cbn. unfold primary_id. cbn. rewrite Hid. repeat split; reflexivity.
Qed.

(** C5.  For a [view] call that passes validation, the parts handed to the
    Identifier Deriver for the statement identifier are, in this order, the
    timestamp, the assignment URI and the user identifier of the actor, under
    the verb VIEWED; the only other derivation of the run is that of the
    viewed assignment's own identifier.  A second [view] call that agrees on
    timestamp, assignment and actor, under the same configuration, carries
    the same flat statement identifier. *)
Theorem view_identifier_parts (c : config) (s1 s2 : statement) :
  validate c s1 view_rules = None ->
  timestamp s2 = timestamp s1 ->
  get "assignment" (metadata s2) = get "assignment" (metadata s1) ->
  actor s2 = actor s1 ->
  get "uuid" (XAPI (snd (view_descriptor c s1)))
  = VArr [timestamp s1; get "assignment" (metadata s1); XAPI.getUserId (actor s1)]
  /\ filter is_derivation (trace (view c s1))
     = [DeriveId (platform c) VERBS.CREATED [get "assignment" (metadata s1)];
        DeriveId (platform c) VERBS.VIEWED
          [timestamp s1; get "assignment" (metadata s1);
           XAPI.getUserId (actor s1)]]
  /\ flat_at ["id"] (view c s1)
     = Some (VStr (deriveId (platform c) VERBS.VIEWED
                     [timestamp s1; get "assignment" (metadata s1);
                      XAPI.getUserId (actor s1)]))
  /\ flat_at ["id"] (view c s2) = flat_at ["id"] (view c s1).
Proof.
  intros Hv1 Ht Ha Hact.
  assert (Hv2 : validate c s2 view_rules = None).
  { rewrite <- Hv1. unfold validate. apply check_all_ext.
    intros k r [E|[]]. inversion E; subst. exact Ha. }
  as_runs. rewrite (flat_at_id View _ _ Hv1), (flat_at_id View _ _ Hv2).
  rewrite (derivations_valid View _ _ Hv1).
  cbn. unfold primary_id. cbn. rewrite Ht, Ha, Hact. repeat split; reflexivity.
Qed.

(** The object of the flat statement of a valid run is the template's. *)
Lemma flat_at_object_uuid (op : operation) (c : config) (s : statement) (u : string) :
  validate c s (rules_of op) = None ->
  get "object" (XAPI (snd (descriptor_of op c s))) = VStr u ->
  flat_at ["object"] (run op c s) = Some (VStr u).
Proof.
  intros Hv Hu. rewrite (flat_at_valid _ _ _ _ Hv).
  rewrite flat_template by auto. rewrite Hu. reflexivity.
Qed.

(** C10.  The flat statements refer to one another by derived identifier.
    The object of a [view] and of a [submit] statement for the assignment URI
    [u] is the identifier a [create] statement with [metadata.id = u]
    carries: the one derived from the platform, CREATED and [u].  The object
    of a [grade] statement for the submission URI [w], and of a [feedback]
    statement whose [metadata.submission] is [w], is the identifier a
    [submit] statement with [metadata.id = w] carries: the one derived from
    the platform, SUBMITTED and [w]. *)
Theorem cross_statement_identifier_linkage
  (c : config) (sc sv ss sg sf : statement) :
  validate c sc create_rules = None ->
  validate c sv view_rules = None ->
  validate c ss submit_rules = None ->
  validate c sg grade_rules = None ->
  validate c sf feedback_rules = None ->
  get "assignment" (metadata sv) = get "id" (metadata sc) ->
  get "assignment" (metadata ss) = get "id" (metadata sc) ->
  get "id" (metadata sg) = get "id" (metadata ss) ->
  get "submission" (metadata sf) = get "id" (metadata ss) ->
  flat_at ["id"] (create c sc)
  = Some (VStr (deriveId (platform c) VERBS.CREATED [get "id" (metadata sc)]))
  /\ flat_at ["object"] (view c sv) = flat_at ["id"] (create c sc)
  /\ flat_at ["object"] (submit c ss) = flat_at ["id"] (create c sc)
  /\ flat_at ["id"] (submit c ss)
     = Some (VStr (deriveId (platform c) VERBS.SUBMITTED [get "id" (metadata ss)]))
  /\ flat_at ["object"] (grade c sg) = flat_at ["id"] (submit c ss)
  /\ flat_at ["object"] (feedback c sf) = flat_at ["id"] (submit c ss).
Proof.
  intros Hc Hv Hs Hg Hf Evc Esc Egs Efs.
  as_runs. rewrite (flat_at_id Create _ _ Hc), (flat_at_id Submit _ _ Hs).
  rewrite (flat_at_object_uuid View c sv _ Hv eq_refl).
  rewrite (flat_at_object_uuid Submit c ss _ Hs eq_refl).
  rewrite (flat_at_object_uuid Grade c sg _ Hg eq_refl).
  rewrite (flat_at_object_uuid Feedback c sf _ Hf eq_refl).
  unfold primary_id. cbn. rewrite Evc, Esc, Egs, Efs. repeat split; reflexivity.
Qed.

(** C6.  Rendered entities and persons never carry an absent attribute: the
    rendered object holds exactly the supplied attributes and extensions whose
    value is not absent, so a key all of whose supplied values are absent is
    not a key of the output.  In particular a [create] call without a
    description sends two statements whose object has the assignment's id and
    name and no description field. *)
Theorem absent_attributes_are_omitted
  (c : config) (s : statement) (attributes extensions : obj) (a : value) :
  (exists fields,
     snd (Caliper.generateEntity attributes extensions) = VObj fields
     /\ (forall k v, In (k, v) fields
                     <-> In (k, v) (attributes ++ extensions) /\ is_absent v = false)
     /\ (forall k, (forall v, In (k, v) (attributes ++ extensions) ->
                              is_absent v = true) ->
                   lookup k fields = None))
  /\ (exists fields,
        snd (Caliper.generatePerson a) = VObj fields
        /\ (forall k v, In (k, v) fields -> is_absent v = false)
        /\ (is_absent (XAPI.getUserId a) = true -> lookup "id" fields = None))
  /\ (validate c s create_rules = None ->
      is_absent (get "description" (metadata s)) = true ->
      flat_at ["object"; "id"] (create c s) = Some (get "id" (metadata s))
      /\ flat_at ["object"; "name"] (create c s) = Some (get "title" (metadata s))
      /\ flat_at ["object"; "description"] (create c s) = None
      /\ structured_at ["object"; "id"] (create c s) = Some (get "id" (metadata s))
      /\ structured_at ["object"; "name"] (create c s)
         = Some (get "title" (metadata s))
      /\ structured_at ["object"; "description"] (create c s) = None).
Proof.
  split; [|split].
  - exists (prune_fields (attributes ++ extensions)). split; [reflexivity|]. split.
    + intros k v. apply prune_fields_In.
    + intros k Habs. apply lookup_None_iff. intros v Hin.
      apply prune_fields_In in Hin. destruct Hin as [Hin Hv].
      rewrite (Habs v Hin) in Hv. discriminate.
  - eexists. split; [reflexivity|]. split.
    + intros k v Hin. apply prune_fields_In in Hin. apply Hin.
    + intros Habs. lookup_pruned. rewrite Habs. reflexivity.
  - intros Hv Hd.
    destruct (valid_required_uri c s _ "id" Hv) as (u & Hu & _); [cbn; auto 10|].
    destruct (valid_required_string c s _ "title" Hv) as (t & Ht); [cbn; auto 10|].
    as_runs.
    rewrite !(flat_at_valid Create _ _ _ Hv), !(structured_at_valid Create _ _ _ Hv).
    rewrite !flat_template, !structured_template by auto. cbn.
    rewrite prune_VObj. cbn [path]. lookup_pruned.
    rewrite Hd, Hu, Ht. cbn [is_absent].
    repeat match goal with |- context [if is_absent ?x then _ else _] =>
      destruct (is_absent x) end; repeat split; reflexivity.
Qed.

Lemma passes_required (k : string) (t : field_type) (m : obj) :
  passes k {| type := t; required := true |} m
  <-> present (get k m) = true /\ conforms t (get k m) = true.
Proof. unfold passes. cbn. intuition. Qed.

Lemma passes_optional (k : string) (t : field_type) (m : obj) :
  passes k {| type := t; required := false |} m
  <-> (present (get k m) = true -> conforms t (get k m) = true).
Proof. unfold passes. cbn. intuition discriminate. Qed.

Lemma present_string (t : string) : present (VStr t) = true <-> t <> "".
Proof.
  cbn. rewrite negb_true_iff. destruct (String.eqb_spec t ""); split; congruence.
Qed.

(** C7.  [create] checks exactly six fields: [id] (uri, required), [title]
    (string, required), [description] (string), [due_at] (date),
    [max_points] (number) and [submission_types] (array), the last four
    optional.  It gets past validation, that is it hands a statement to the
    transport, exactly when [id] is a supplied valid URI, [title] is a
    supplied string, and each optional field, when supplied, has its declared
    type. *)
Theorem create_validation_rules (c : config) (s : statement) :
  create_rules
  = [("id", {| type := uri_t; required := true |});
     ("title", {| type := string_t; required := true |});
     ("description", {| type := string_t; required := false |});
     ("due_at", {| type := date_t; required := false |});
     ("max_points", {| type := number_t; required := false |});
     ("submission_types", {| type := array_t; required := false |})]
  /\ (validate c s create_rules = None
      <-> (exists u, get "id" (metadata s) = VStr u /\ u <> "" /\ isUri u = true)
          /\ (exists t, get "title" (metadata s) = VStr t /\ t <> "")
          /\ (present (get "description" (metadata s)) = true ->
              exists d, get "description" (metadata s) = VStr d)
          /\ (present (get "due_at" (metadata s)) = true ->
              isDate (get "due_at" (metadata s)) = true)
          /\ (present (get "max_points" (metadata s)) = true ->
              exists x, get "max_points" (metadata s) = VNum x /\ is_nan x = false)
          /\ (present (get "submission_types" (metadata s)) = true ->
              exists items, get "submission_types" (metadata s) = VArr items))
  /\ (sent (trace (create c s)) <> [] <-> validate c s create_rules = None).
Proof.
  split; [reflexivity|]. split.
  - unfold validate. rewrite check_all_None_iff. split.
    + intros Hall.
      assert (Hp : forall k r, In (k, r) create_rules -> passes k r (metadata s))
        by (intros k r Hin; apply check_None_iff, Hall, Hin).
      pose proof (Hp "id" _ (or_introl eq_refl)) as Hid.
      pose proof (Hp "title" _ (or_intror (or_introl eq_refl))) as Htitle.
      pose proof (Hp "description" _
                    (or_intror (or_intror (or_introl eq_refl)))) as Hdesc.
      pose proof (Hp "due_at" _
                    (or_intror (or_intror (or_intror (or_introl eq_refl))))) as Hdue.
      pose proof (Hp "max_points" _
                    (or_intror (or_intror (or_intror (or_intror
                      (or_introl eq_refl)))))) as Hmax.
      pose proof (Hp "submission_types" _
                    (or_intror (or_intror (or_intror (or_intror (or_intror
                      (or_introl eq_refl))))))) as Hsub.
      apply passes_required in Hid, Htitle.
      rewrite passes_optional in Hdesc, Hdue, Hmax, Hsub.
      destruct Hid as [Hpid Hcid]. destruct Htitle as [Hpt Hct].
      apply conforms_uri in Hcid. destruct Hcid as (u & Eu & Hu).
      apply conforms_string in Hct. destruct Hct as (t & Et).
      rewrite Eu in Hpid. rewrite Et in Hpt.
      apply present_string in Hpid. apply present_string in Hpt.
      split; [exists u; auto|]. split; [exists t; auto|].
      split; [intros Hp'; apply conforms_string, Hdesc, Hp'|].
      split; [exact Hdue|].
      split; [intros Hp'; apply conforms_number, Hmax, Hp'|].
      intros Hp'; apply conforms_array, Hsub, Hp'.
    + intros ((u & Eu & Hne & Hu) & (t & Et & Htne) & Hdesc & Hdue & Hmax & Hsub).
      intros k r Hin. apply check_None_iff.
      cbn in Hin.
      destruct Hin as [E|[E|[E|[E|[E|[E|[]]]]]]]; inversion E; subst k r.
      * apply passes_required. rewrite Eu. split; [apply present_string, Hne|].
        apply conforms_uri. exists u. auto.
      * apply passes_required. rewrite Et. split; [apply present_string, Htne|].
        reflexivity.
      * apply passes_optional. intros Hp'. apply conforms_string, Hdesc, Hp'.
      * apply passes_optional. exact Hdue.
      * apply passes_optional. intros Hp'. apply conforms_number, Hmax, Hp'.
      * apply passes_optional. intros Hp'. apply conforms_array, Hsub, Hp'.
  - as_runs. destruct (validate c s create_rules) as [e|] eqn:Hv.
    + rewrite (trace_invalid Create c s e Hv). cbn. split; [congruence|discriminate].
    + rewrite (sent_valid Create c s Hv). split; [reflexivity|discriminate].
Qed.

(** C9.  The structured-format template of [grade] carries the empty string
    as its event type, and that of [feedback] carries no ['type'] key at all;
    neither supplies a vocabulary term, whereas [create], [view] and [submit]
    do.  The structured statement sent has the same: an empty type for
    [grade], no type for [feedback]. *)
Theorem structured_event_type_left_blank (c : config) (s : statement) :
  lookup "type" (CALIPER (snd (grade_descriptor c s))) = Some (VStr "")
  /\ lookup "type" (CALIPER (snd (feedback_descriptor c s))) = None
  /\ lookup "type" (CALIPER (snd (create_descriptor c s)))
     = Some (VTerm (EventType CaliperEventType.ASSESSMENT))
  /\ lookup "type" (CALIPER (snd (view_descriptor c s)))
     = Some (VTerm (EventType CaliperEventType.VIEWED))
  /\ lookup "type" (CALIPER (snd (submit_descriptor c s)))
     = Some (VTerm (EventType CaliperEventType.ASSESSMENT))
  /\ path ["type"] (structured_of s (snd (grade_descriptor c s))) = Some (VStr "")
  /\ path ["type"] (structured_of s (snd (feedback_descriptor c s))) = None.
Proof.
  repeat split; try reflexivity; rewrite structured_template by auto; reflexivity.
Qed.

(** C4.  Whichever of the five builders is called, when validation fails the
    run consists of one callback invocation and nothing else: the callback
    receives the validation error, which names a declared field, its declared
    type and whether it was missing or of the wrong type; no identifier is
    derived, nothing is rendered, and nothing is handed to the transport.  In
    particular a [submit] call that lacks [metadata.assignment] always fails
    validation, and when that is its only defect, its [metadata.id] being a
    supplied valid URI, the error cites field [assignment] with reason
    missing. *)
Theorem validation_failure_short_circuits (c : config) (s : statement) :
  (forall op e,
     validate c s (rules_of op) = Some e ->
     trace (run op c s) = [Callback (Some (ValidationError e)) None]
     /\ callbacks (trace (run op c s)) = [(Some (ValidationError e), None)]
     /\ filter is_derivation (trace (run op c s)) = []
     /\ filter is_rendering (trace (run op c s)) = []
     /\ sent (trace (run op c s)) = []
     /\ exists r,
         In (field e, r) (rules_of op)
         /\ expected e = type r
         /\ (why e = missing
             /\ required r = true
             /\ present (get (field e) (metadata s)) = false
             \/ why e = wrong_type
                /\ present (get (field e) (metadata s)) = true
                /\ conforms (type r) (get (field e) (metadata s)) = false))
  /\ (present (get "assignment" (metadata s)) = false ->
      (exists e, validate c s submit_rules = Some e)
      /\ (present (get "id" (metadata s)) = true ->
          conforms uri_t (get "id" (metadata s)) = true ->
          trace (submit c s)
          = [Callback
               (Some (ValidationError
                        {| field := "assignment"; why := missing;
                           expected := uri_t |}))
               None])).
Proof.
  split.
  - intros op e He. rewrite (trace_invalid op c s e He).
    repeat (split; [reflexivity|]).
    unfold validate in He.
    destruct (check_all_Some_first _ _ _ He) as (pre & k & r & post & HR & _ & Hk).
    destruct (check_Some _ _ _ _ Hk) as (Hf & Hexp & Hwhy). subst k.
    exists r. split; [|split; assumption].
    rewrite HR. apply in_or_app. right. left. reflexivity.
  - intros Hna. split.
    + unfold validate, submit_rules. cbn [check_all].
      destruct (check "id" _ (metadata s)) as [e|]; [exists e; reflexivity|].
      unfold check at 1. rewrite Hna. cbn. eauto.
    + intros Hp Hc. as_runs. apply (trace_invalid Submit).
      unfold validate, rules_of, submit_rules. cbn [check_all].
      unfold check at 1. rewrite Hp. cbn [type required]. rewrite Hc.
      unfold check at 1. rewrite Hna. reflexivity.
Qed.

(** C8.  Every call of every builder invokes the callback exactly once.  On a
    validation failure it receives that error and nothing has been handed to
    the transport.  Otherwise one statement pair is handed to the transport
    and the callback follows, with the transport's error when the transport
    fails and with no error and the transport's result when it succeeds. *)
Theorem callback_invoked_exactly_once (op : operation) (c : config) (s : statement) :
  exists err result,
    callbacks (trace (run op c s)) = [(err, result)]
    /\ (forall e,
          validate c s (rules_of op) = Some e ->
          err = Some (ValidationError e) /\ result = None
          /\ sent (trace (run op c s)) = [])
    /\ (validate c s (rules_of op) = None ->
        exists before flat structured,
          trace (run op c s)
          = before ++ [Send flat structured; Callback err result]
          /\ callbacks before = [] /\ sent before = []
          /\ (forall x, send flat structured = Failed x ->
                        err = Some (TransportError x) /\ result = None)
          /\ (forall r, send flat structured = Delivered r ->
                        err = None /\ result = Some r)).
Proof.
  destruct (validate c s (rules_of op)) as [e|] eqn:Hv.
  - exists (Some (ValidationError e)), None.
    rewrite (trace_invalid op c s e Hv).
    split; [reflexivity|]. split; [|discriminate].
    intros e' E. inversion E; subst. repeat split; reflexivity.
  - set (d := snd (descriptor_of op c s)).
    set (o := send (flat_of c s d) (structured_of s d)).
    exists (fst (relay o)), (snd (relay o)).
    rewrite (trace_valid op c s Hv), trace_processStatement. fold d. fold o.
    split; [|split; [discriminate|]].
    + rewrite callbacks_app, (proj2 (descriptor_quiet op c s)). reflexivity.
    + intros _.
      exists (trace (descriptor_of op c s)
              ++ [DeriveId (platform c) (verb d) (parts_of (get "uuid" (XAPI d)));
                  RenderPerson (actor s)]),
        (flat_of c s d), (structured_of s d).
      split; [rewrite <- app_assoc; reflexivity|].
      rewrite callbacks_app, sent_app.
      rewrite (proj1 (descriptor_quiet op c s)), (proj2 (descriptor_quiet op c s)).
      split; [reflexivity|]. split; [reflexivity|].
      fold o. split; intros x Hx; rewrite Hx; split; reflexivity.
Qed.

End Builders.

(** ** The builders at work *)

Section Scenarios.

Import StatementUtil Assignment.

#[local] Existing Instance Demo.collaborators.

(** Scenario 1 in full: the two statements a [create] call hands to the
    transport. *)
Example created_statements :
  sent (trace (create Demo.acme Demo.created))
  = [(VObj
        [("id", VStr "acme:created:https://x/a1");
         ("actor", VObj [("id", VStr "u1")]);
         ("verb", VTerm (Verb VERBS.CREATED));
         ("timestamp", VDate 1700000000000);
         ("object",
           VObj [("id", VStr "https://x/a1");
                 ("type", VTerm (ActivityTypeId ACTIVITY_TYPES.ASSESSMENT));
                 ("name", VStr "Essay")])],
      VObj
        [("type", VTerm (EventType CaliperEventType.ASSESSMENT));
         ("actor",
           VObj [("type", VTerm (EntityType CaliperEntityType.PERSON));
                 ("id", VStr "u1")]);
         ("action", VTerm (Verb VERBS.CREATED));
         ("eventTime", VDate 1700000000000);
         ("object",
           VObj [("type",
                   VTerm (DigitalResourceType
                            CaliperDigitalResourceType.ASSIGNABLE_DIGITAL_RESOURCE));
                 ("id", VStr "https://x/a1");
                 ("name", VStr "Essay")])])].
Proof. reflexivity. Qed.

(** The calls of a valid [grade], in order. *)
Example graded_calls :
  map (fun c => match c with
                | DeriveId _ v _ => Demo.verb_name v
                | RenderEntity _ _ => "entity"
                | RenderPerson _ => "person"
                | Send _ _ => "send"
                | Callback _ _ => "callback"
                end)
      (trace (grade Demo.acme Demo.graded))
  = ["submitted"; "entity"; "person"; "entity"; "scored"; "person"; "send";
     "callback"].
Proof. reflexivity. Qed.

Example scaled_45_50 : scaled_score Demo.graded = VNum 0.9.
Proof. reflexivity. Qed.

Example scaled_without_max : scaled_score Demo.graded_without_max = VNull.
Proof. reflexivity. Qed.

(** A grade of 45 out of 50 is reported with the normalized score 0.9 in both
    statements; without [grade_max] neither statement has one. *)
Lemma grade_normalized_score_witness :
  validate Demo.acme Demo.graded grade_rules = None
  /\ flat_at ["result"; "score"; "scaled"] (grade Demo.acme Demo.graded)
     = Some (VNum 0.9)
  /\ structured_at ["generated"; "normalScore"] (grade Demo.acme Demo.graded)
     = Some (VNum 0.9)
  /\ flat_at ["result"; "score"; "scaled"] (grade Demo.acme Demo.graded_without_max)
     = None
  /\ structured_at ["generated"; "normalScore"]
       (grade Demo.acme Demo.graded_without_max)
     = None.
Proof.
  split; [reflexivity|].
  destruct (@grade_normalized_score Demo.collaborators
              Demo.acme Demo.graded eq_refl)
    as (g & Hg & _ & _ & Hmax & _).
  destruct (@grade_normalized_score Demo.collaborators
              Demo.acme Demo.graded_without_max eq_refl)
    as (_ & _ & _ & _ & _ & Habsent).
  cbn in Hg. injection Hg as <-.
  destruct (Hmax 50%float eq_refl eq_refl) as [Hflat Hstructured].
  destruct (Habsent eq_refl) as [Hflat' Hstructured'].
  repeat split; assumption.
Defined.

(** Sending the same assignment again, with another title and timestamp,
    addresses the same statement. *)
Lemma create_identifier_idempotent_witness :
  get "id" (metadata Demo.created) = get "id" (metadata Demo.created_again)
  /\ flat_at ["id"] (create Demo.acme Demo.created)
     = Some (VStr "acme:created:https://x/a1")
  /\ flat_at ["id"] (create Demo.acme Demo.created_again)
     = flat_at ["id"] (create Demo.acme Demo.created)
  /\ structured_at ["object"; "id"] (create Demo.acme Demo.created_again)
     = structured_at ["object"; "id"] (create Demo.acme Demo.created).
Proof.
  split; [reflexivity|].
  destruct (@create_identifier_idempotent Demo.collaborators
              Demo.acme Demo.created Demo.created_again
              eq_refl eq_refl eq_refl)
    as (Hid & Hsame & _ & Hobj & _).
  repeat split; assumption.
Defined.

(** Two reports of the same view carry the same identifier. *)
Lemma view_identifier_parts_witness :
  flat_at ["id"] (view Demo.acme Demo.viewed)
  = Some (VStr "acme:viewed:T,https://x/a1,u1")
  /\ flat_at ["id"] (view Demo.acme Demo.viewed_again)
     = flat_at ["id"] (view Demo.acme Demo.viewed).
Proof.
  destruct (@view_identifier_parts Demo.collaborators
              Demo.acme Demo.viewed Demo.viewed_again
              eq_refl eq_refl eq_refl eq_refl)
    as (_ & _ & Hid & Hsame).
  split; assumption.
Defined.

(** The statements about one assignment and one submission point at each
    other. *)
Lemma cross_statement_identifier_linkage_witness :
  flat_at ["object"] (view Demo.acme Demo.viewed)
  = flat_at ["id"] (create Demo.acme Demo.created)
  /\ flat_at ["object"] (submit Demo.acme Demo.submitted)
     = flat_at ["id"] (create Demo.acme Demo.created)
  /\ flat_at ["object"] (grade Demo.acme Demo.graded)
     = flat_at ["id"] (submit Demo.acme Demo.submitted)
  /\ flat_at ["object"] (feedback Demo.acme Demo.commented)
     = flat_at ["id"] (submit Demo.acme Demo.submitted)
  /\ flat_at ["id"] (submit Demo.acme Demo.submitted)
     = Some (VStr "acme:submitted:https://x/s1").
Proof.
  destruct (@cross_statement_identifier_linkage Demo.collaborators Demo.acme
              Demo.created Demo.viewed Demo.submitted Demo.graded Demo.commented
              eq_refl eq_refl eq_refl eq_refl eq_refl
              eq_refl eq_refl eq_refl eq_refl)
    as (_ & Hview & Hsubmit & Hid & Hgrade & Hfeedback).
  repeat split; assumption.
Defined.

(** A submission without its assignment: the error is that of the second
    declared field, the first one having passed. *)
Lemma validate_first_failure_or_none_witness :
  exists pre r post,
    submit_rules = pre ++ ("assignment", r) :: post
    /\ (forall k' r', In (k', r') pre ->
                      passes k' r' (metadata Demo.submitted_without_assignment))
    /\ required r = true
    /\ type r = uri_t.
Proof.
  destruct (proj2 (proj2 (@validate_first_failure_or_none Demo.collaborators
                            Demo.acme Demo.submitted_without_assignment
                            submit_rules))
              {| field := "assignment"; why := missing; expected := uri_t |}
              eq_refl)
    as (pre & r & post & HR & Hpre & _ & Hexp & Hwhy).
  exists pre, r, post. split; [exact HR|]. split; [exact Hpre|].
  split; [|symmetry; exact Hexp].
  destruct Hwhy as [(_ & Hreq & _) | (Hw & _)]; [exact Hreq | discriminate Hw].
Defined.

(** A submission with a valid id and no assignment is refused, citing the
    assignment as missing, by a single callback invocation. *)
Lemma validation_failure_short_circuits_witness :
  present (get "assignment" (metadata Demo.submitted_without_assignment)) = false
  /\ trace (submit Demo.acme Demo.submitted_without_assignment)
     = [Callback
          (Some (ValidationError
                   {| field := "assignment"; why := missing; expected := uri_t |}))
          None].
Proof.
  split; [reflexivity|].
  exact (proj2 (proj2 (@validation_failure_short_circuits Demo.collaborators
                         Demo.acme Demo.submitted_without_assignment) eq_refl)
           eq_refl eq_refl).
Defined.

(** Scenario 1: the created assignment is sent with its id and name and
    without a description, in both formats. *)
Lemma absent_attributes_are_omitted_witness :
  flat_at ["object"; "id"] (create Demo.acme Demo.created)
  = Some (VStr "https://x/a1")
  /\ flat_at ["object"; "name"] (create Demo.acme Demo.created)
     = Some (VStr "Essay")
  /\ flat_at ["object"; "description"] (create Demo.acme Demo.created) = None
  /\ structured_at ["object"; "id"] (create Demo.acme Demo.created)
     = Some (VStr "https://x/a1")
  /\ structured_at ["object"; "name"] (create Demo.acme Demo.created)
     = Some (VStr "Essay")
  /\ structured_at ["object"; "description"] (create Demo.acme Demo.created)
     = None.
Proof.
  exact (proj2 (proj2 (@absent_attributes_are_omitted Demo.collaborators
                         Demo.acme Demo.created [] [] Demo.u1))
           eq_refl eq_refl).
Defined.

(** The created assignment of scenario 1 gets past validation. *)
Lemma create_validation_rules_witness :
  validate Demo.acme Demo.created create_rules = None
  /\ exists u, get "id" (metadata Demo.created) = VStr u
               /\ u <> "" /\ isUri u = true.
Proof.
  split; [reflexivity|].
  exact (proj1 (proj1 (proj1 (proj2 (@create_validation_rules Demo.collaborators
                                       Demo.acme Demo.created)))
                  eq_refl)).
Defined.

(** With a transport that fails, the callback of a valid submission is
    invoked once, with the transport's error. *)
Lemma callback_invoked_exactly_once_witness :
  callbacks (trace (@run Demo.failing Submit Demo.acme Demo.submitted))
  = [(Some (TransportError (VStr "unreachable")), None)].
Proof.
  destruct (@callback_invoked_exactly_once Demo.failing Submit
              Demo.acme Demo.submitted)
    as (err & result & Hcb & _ & Hvalid).
  destruct (Hvalid eq_refl) as (before & f & t & _ & _ & _ & Hfailed & _).
  destruct (Hfailed (VStr "unreachable") eq_refl) as [-> ->].
  exact Hcb.
Defined.

End Scenarios.

(** ** What the descriptors read, and what they leave out *)

(** The attribute and extension lists of the entities a run renders, in
    order. *)
Definition rendered_entities (t : list call) : list (obj * obj) :=
  flat_map (fun c => match c with RenderEntity a e => [(a, e)] | _ => [] end) t.

(** The identifier derivations a run asks for, in order. *)
Definition derivations (t : list call) : list (value * VERBS.t * list value) :=
  flat_map (fun c => match c with DeriveId p v ps => [(p, v, ps)] | _ => [] end) t.

Module DemoMore.

(** Two reports of one feedback that disagree on the submission it is for. *)
Definition commented_elsewhere : statement :=
  {| actor := Demo.u1; timestamp := Demo.T;
     metadata := [("id", VStr "https://x/f1");
                  ("submission", VStr "https://x/s2");
                  ("feedback", VStr "Well argued")] |}.

Definition graded_out_of_zero : statement :=
  {| actor := Demo.u1; timestamp := Demo.T;
     metadata := [("id", VStr "https://x/s1");
                  ("assignment", VStr "https://x/a1");
                  ("grade", VNum 45);
                  ("grade_max", VNum 0)] |}.

(** The grade of [Demo.graded], reported with a minimum. *)
Definition graded_with_min : statement :=
  {| actor := Demo.u1; timestamp := Demo.T;
     metadata := [("id", VStr "https://x/s1");
                  ("assignment", VStr "https://x/a1");
                  ("grade", VNum 45);
                  ("grade_min", VNum 10);
                  ("grade_max", VNum 50)] |}.

(** The grade of [Demo.graded], reported for another assignment. *)
Definition graded_for_other_assignment : statement :=
  {| actor := Demo.u1; timestamp := Demo.T;
     metadata := [("id", VStr "https://x/s1");
                  ("assignment", VStr "https://x/a2");
                  ("grade", VNum 45);
                  ("grade_max", VNum 50)] |}.

(** The assignment of [Demo.created] with a due date and a maximum. *)
Definition created_with_deadline : statement :=
  {| actor := Demo.u1; timestamp := Demo.T;
     metadata := [("id", VStr "https://x/a1"); ("title", VStr "Essay");
                  ("due_at", VDate 1701000000000);
                  ("max_points", VNum 50)] |}.

(** A regrade of [Demo.graded]: later, by someone else, with another grade. *)
Definition regraded : statement :=
  {| actor := VObj [("id", VStr "u2")]; timestamp := VDate 1700000900000;
     metadata := [("id", VStr "https://x/s1");
                  ("assignment", VStr "https://x/a1");
                  ("grade", VNum 30);
                  ("grade_max", VNum 50)] |}.

End DemoMore.

Section Coverage.

Context `{Collaborators}.

Import StatementUtil Assignment.

(** X1.  A builder reads the metadata only through the fields its rule table
    declares: two statements with the same actor and timestamp that agree on
    every declared field make the same calls and yield the same descriptor,
    whatever else their metadata holds. *)
Theorem undeclared_metadata_is_never_read
  (op : operation) (c : config) (s s' : statement) :
  actor s' = actor s ->
  timestamp s' = timestamp s ->
  (forall k r, In (k, r) (rules_of op) ->
               get k (metadata s') = get k (metadata s)) ->
  descriptor_of op c s' = descriptor_of op c s.
Proof.
  intros Ha Ht Hm.
  assert (Hk : forall k, In k (map fst (rules_of op)) ->
                         get k (metadata s') = get k (metadata s)).
  { intros k Hin. apply in_map_iff in Hin. destruct Hin as ([k' r] & <- & Hin).
    exact (Hm k' r Hin). }
  destruct op; cbn in Hk;
    unfold descriptor_of, create_descriptor, view_descriptor, submit_descriptor,
      grade_descriptor, feedback_descriptor, scaled_score;
    cbv zeta;
    rewrite ?Ha, ?Ht;
    repeat match goal with
      | |- context [get ?k (metadata s')] =>
          rewrite (Hk k) by (cbn; auto 10)
      end;
    reflexivity.
Qed.

(** X2.  Apart from [view], a builder identifies its statement by its verb
    and [metadata.id] alone, and no two builders share a verb.  So two calls
    hand the processor the same verb and the same identifier parts exactly
    when they are calls of the same builder with the same [metadata.id]:
    grade, title, text, actor and time play no part. *)
Theorem statement_identity_is_verb_and_id
  (op op' : operation) (c : config) (s s' : statement) :
  op <> View ->
  op' <> View ->
  verb (snd (descriptor_of op c s)) = verb (snd (descriptor_of op' c s'))
  /\ get "uuid" (XAPI (snd (descriptor_of op c s)))
     = get "uuid" (XAPI (snd (descriptor_of op' c s')))
  <-> op = op' /\ get "id" (metadata s) = get "id" (metadata s').
Proof.
  intros Hop Hop'.
  destruct op, op'; try (destruct (Hop eq_refl)); try (destruct (Hop' eq_refl));
    cbn; split; intros [H1 H2];
    try discriminate H1;
    try (split; [reflexivity | injection H2 as H2; exact H2]);
    try (split; [reflexivity | rewrite H2; reflexivity]).
Qed.

(** X3.  The submission a [feedback] is for reaches the xAPI template only,
    as the single part of the derived object identifier.  The Caliper template
    is built from [metadata.id] and the feedback text alone: its object is the
    feedback, and its target is an attempt that carries the feedback's own
    [metadata.id].  Two feedback statements that agree on id and text have
    the same Caliper template, whichever submission each names. *)
Theorem feedback_submission_reaches_xapi_only (c : config) (s s' : statement) :
  get "id" (metadata s') = get "id" (metadata s) ->
  get "feedback" (metadata s') = get "feedback" (metadata s) ->
  rendered_entities (trace (feedback_descriptor c s))
  = [([("id", get "id" (metadata s));
       ("description", get "feedback" (metadata s))], []);
     ([("type", VTerm (EntityType CaliperEntityType.ATTEMPT));
       ("id", get "id" (metadata s))], [])]
  /\ derivations (trace (feedback_descriptor c s))
     = [(platform c, VERBS.SUBMITTED, [get "submission" (metadata s)])]
  /\ rendered_entities (trace (feedback_descriptor c s'))
     = rendered_entities (trace (feedback_descriptor c s))
  /\ CALIPER (snd (feedback_descriptor c s'))
     = CALIPER (snd (feedback_descriptor c s)).
Proof.
  intros Hid Hf. cbn. rewrite Hid, Hf. repeat split; reflexivity.
Qed.

(** X4.  [grade] never divides by a zero or missing maximum.  When
    [grade_max] is falsy (absent, [null], empty, zero or NaN) the scaled score
    stays [null] in the xAPI score and in the Caliper result, while the xAPI
    score still reports the maximum as given.  Conversely a scaled score that
    is a number was obtained with a truthy maximum, which when it is a number
    is neither zero nor NaN. *)
Theorem grade_never_divides_by_zero (c : config) (s : statement) :
  (truthy (get "grade_max" (metadata s)) = false ->
   path ["score"; "scaled"] (get "result" (XAPI (snd (grade_descriptor c s))))
   = Some VNull
   /\ path ["score"; "max"] (get "result" (XAPI (snd (grade_descriptor c s))))
      = Some (get "grade_max" (metadata s))
   /\ exists attributes,
       nth_error (rendered_entities (trace (grade_descriptor c s))) 1
       = Some (attributes, [])
       /\ lookup "normalScore" attributes = Some VNull)
  /\ (forall x,
        scaled_score s = VNum x ->
        truthy (get "grade_max" (metadata s)) = true
        /\ forall m, get "grade_max" (metadata s) = VNum m ->
                     is_zero m = false /\ is_nan m = false).
Proof.
  split.
  - intros Hf. cbn. unfold scaled_score. rewrite Hf.
    split; [reflexivity|]. split; [reflexivity|].
    eexists. split; reflexivity.
  - intros x Hx. unfold scaled_score in Hx.
    destruct (truthy (get "grade_max" (metadata s))) eqn:Ht; [|discriminate Hx].
    split; [reflexivity|]. intros m Hm. rewrite Hm in Ht. cbn in Ht.
    apply negb_true_iff, orb_false_iff in Ht. exact Ht.
Qed.

(** X5.  The due date and the maximum number of points of a created
    assignment reach the Caliper entity only, as [dateToSubmit] and
    [maxScore]; the xAPI template does not depend on them. *)
Theorem create_deadline_reaches_caliper_only (c : config) (s s' : statement) :
  get "id" (metadata s') = get "id" (metadata s) ->
  get "title" (metadata s') = get "title" (metadata s) ->
  get "description" (metadata s') = get "description" (metadata s) ->
  get "submission_types" (metadata s') = get "submission_types" (metadata s) ->
  XAPI (snd (create_descriptor c s')) = XAPI (snd (create_descriptor c s))
  /\ exists attributes extensions,
      rendered_entities (trace (create_descriptor c s))
      = [(attributes, extensions)]
      /\ lookup "dateToSubmit" attributes = Some (get "due_at" (metadata s))
      /\ lookup "maxScore" attributes = Some (get "max_points" (metadata s)).
Proof.
  intros Hid Ht Hd Hs. split.
  - cbn. rewrite Hid, Ht, Hd, Hs. reflexivity.
  - do 2 eexists. split; [reflexivity|]. split; reflexivity.
Qed.

(** X6.  In [grade] the two formats lose different fields.  The xAPI template
    does not depend on the assignment; the Caliper template does not depend
    on the minimum grade, and sees the maximum only through the scaled
    score. *)
Theorem grade_formats_drop_different_fields (c : config) (s s' : statement) :
  get "id" (metadata s') = get "id" (metadata s) ->
  get "grade" (metadata s') = get "grade" (metadata s) ->
  (get "grade_min" (metadata s') = get "grade_min" (metadata s) ->
   get "grade_max" (metadata s') = get "grade_max" (metadata s) ->
   XAPI (snd (grade_descriptor c s')) = XAPI (snd (grade_descriptor c s)))
  /\ (actor s' = actor s ->
      get "assignment" (metadata s') = get "assignment" (metadata s) ->
      scaled_score s' = scaled_score s ->
      CALIPER (snd (grade_descriptor c s')) = CALIPER (snd (grade_descriptor c s))).
Proof.
  intros Hid Hg. split.
  - intros Hmin Hmax. cbn. unfold scaled_score.
    rewrite Hid, Hg, Hmin, Hmax. reflexivity.
  - intros Ha Has Hsc. cbn. rewrite Hid, Hg, Ha, Has, Hsc. reflexivity.
Qed.

(** X7.  [view] and [submit] refer to their assignment in the same way: for
    the same assignment URI and platform they ask for the same derived
    identifier as xAPI object and render the same Caliper object, an
    assignable digital resource with that URI as id; [create] renders its
    assignment with the same type and, for that URI as [metadata.id], the
    same id. *)
Theorem assignment_is_referenced_uniformly (c : config) (sc sv ss : statement) :
  get "assignment" (metadata sv) = get "id" (metadata sc) ->
  get "assignment" (metadata ss) = get "id" (metadata sc) ->
  hd_error (derivations (trace (view_descriptor c sv)))
  = Some (platform c, VERBS.CREATED, [get "id" (metadata sc)])
  /\ hd_error (derivations (trace (submit_descriptor c ss)))
     = hd_error (derivations (trace (view_descriptor c sv)))
  /\ get "object" (XAPI (snd (submit_descriptor c ss)))
     = get "object" (XAPI (snd (view_descriptor c sv)))
  /\ hd_error (rendered_entities (trace (view_descriptor c sv)))
     = Some ([("type", VTerm (DigitalResourceType
                 CaliperDigitalResourceType.ASSIGNABLE_DIGITAL_RESOURCE));
              ("id", get "id" (metadata sc))], [])
  /\ hd_error (rendered_entities (trace (submit_descriptor c ss)))
     = hd_error (rendered_entities (trace (view_descriptor c sv)))
  /\ get "object" (CALIPER (snd (submit_descriptor c ss)))
     = get "object" (CALIPER (snd (view_descriptor c sv)))
  /\ exists attributes extensions,
      rendered_entities (trace (create_descriptor c sc))
      = [(attributes, extensions)]
      /\ lookup "type" attributes
         = Some (VTerm (DigitalResourceType
                   CaliperDigitalResourceType.ASSIGNABLE_DIGITAL_RESOURCE))
      /\ lookup "id" attributes = Some (get "id" (metadata sc)).
Proof.
  intros Hv Hs. cbn. rewrite Hv, Hs.
  repeat (split; [reflexivity|]).
  do 2 eexists. split; [reflexivity|]. split; reflexivity.
Qed.

(** X8.  The rule tables agree with one another, with one exception.  Two
    declarations of a field, in one table or in two, carry the same type and
    the same requiredness exactly when they stand in the same table or the
    field is not [submission]; and [submission] is declared by [submit], as
    an optional string, and by [feedback], as a required URI, and by no other
    builder. *)
Theorem rule_tables_agree (op op' : operation) (k : string) (r r' : rule) :
  In (k, r) (rules_of op) ->
  In (k, r') (rules_of op') ->
  (r = r' <-> op = op' \/ k <> "submission")
  /\ (k = "submission" ->
      op = Submit /\ r = {| type := string_t; required := false |}
      \/ op = Feedback /\ r = {| type := uri_t; required := true |}).
Proof.
  intros Hin Hin'.
  destruct op, op'; cbn in Hin, Hin';
    repeat match goal with
      | H : _ \/ _ |- _ => destruct H
      | H : False |- _ => destruct H
      | H : (_, _) = (_, _) |- _ => inversion H; clear H; subst
      end;
    (split;
     [ split;
       [ intros E;
         first [ left; reflexivity
               | right; discriminate
               | discriminate E ]
       | intros [E | N];
         first [ reflexivity
               | discriminate E
               | destruct (N eq_refl) ] ]
     | intros E;
       first [ discriminate E
             | left; split; reflexivity
             | right; split; reflexivity ] ]).
Qed.

(** X9.  Whatever the statement, every builder hands the processor a
    well-formed descriptor: the xAPI template lists at least one identifier
    part and has an object, the Caliper template has an object, and neither
    template names a key twice. *)
Theorem descriptors_are_well_formed (op : operation) (c : config) (s : statement) :
  (exists part parts,
     get "uuid" (XAPI (snd (descriptor_of op c s))) = VArr (part :: parts))
  /\ lookup "object" (XAPI (snd (descriptor_of op c s))) <> None
  /\ lookup "object" (CALIPER (snd (descriptor_of op c s))) <> None
  /\ NoDup (map fst (XAPI (snd (descriptor_of op c s))))
  /\ NoDup (map fst (CALIPER (snd (descriptor_of op c s)))).
Proof.
  destruct op; cbn;
    (split; [do 2 eexists; reflexivity|]);
    (split; [discriminate|]); (split; [discriminate|]);
    split;
    repeat (constructor;
            [cbn; intros Hin;
             repeat match goal with
               | H : _ \/ _ |- _ => destruct H
               | H : False |- _ => destruct H
               end; discriminate|]);
    constructor.
Qed.

(** X10.  A submission is named alike by the builders that speak of it.  The
    attempt [submit] generates and the attempt [grade] takes as its Caliper
    object have the same type and, for the same [metadata.id], the same id;
    and the identifier [grade] asks for as its xAPI object is derived from
    the verb and the parts [submit] hands the processor for its own
    statement. *)
Theorem submission_is_referenced_uniformly (c : config) (ss sg : statement) :
  get "id" (metadata sg) = get "id" (metadata ss) ->
  (exists attributes,
     nth_error (rendered_entities (trace (submit_descriptor c ss))) 1
     = Some (attributes, [])
     /\ hd_error (rendered_entities (trace (grade_descriptor c sg)))
        = Some ([("type", VTerm (EntityType CaliperEntityType.ATTEMPT));
                 ("id", get "id" (metadata ss))], [])
     /\ lookup "type" attributes
        = Some (VTerm (EntityType CaliperEntityType.ATTEMPT))
     /\ lookup "id" attributes = Some (get "id" (metadata ss)))
  /\ hd_error (derivations (trace (grade_descriptor c sg)))
     = Some (platform c,
             verb (snd (submit_descriptor c ss)),
             parts_of (get "uuid" (XAPI (snd (submit_descriptor c ss))))).
Proof.
  intros Hid. cbn. rewrite Hid. split; [|reflexivity].
  eexists. split; [reflexivity|]. repeat split; reflexivity.
Qed.

End Coverage.

(** ** The descriptors at work *)

Section CoverageScenarios.

Import StatementUtil Assignment.

#[local] Existing Instance Demo.collaborators.

(** A view reported with a field the builder does not declare yields the
    descriptor of the plain report. *)
Lemma undeclared_metadata_is_never_read_witness :
  lookup "referrer" (metadata Demo.viewed_again) = Some (VStr "feed")
  /\ descriptor_of View Demo.acme Demo.viewed_again
     = descriptor_of View Demo.acme Demo.viewed.
Proof.
  split; [reflexivity|].
  apply (@undeclared_metadata_is_never_read Demo.collaborators View
           Demo.acme Demo.viewed Demo.viewed_again eq_refl eq_refl).
  intros k r [E|[]]. inversion E. reflexivity.
Defined.

(** A regrade, by someone else and with another grade, is identified like the
    first grade. *)
Lemma statement_identity_is_verb_and_id_witness :
  get "grade" (metadata DemoMore.regraded) <> get "grade" (metadata Demo.graded)
  /\ verb (snd (grade_descriptor Demo.acme Demo.graded))
     = verb (snd (grade_descriptor Demo.acme DemoMore.regraded))
  /\ get "uuid" (XAPI (snd (grade_descriptor Demo.acme Demo.graded)))
     = get "uuid" (XAPI (snd (grade_descriptor Demo.acme DemoMore.regraded))).
Proof.
  split; [discriminate|].
  apply (proj2 (@statement_identity_is_verb_and_id Demo.collaborators
                  Grade Grade Demo.acme Demo.graded DemoMore.regraded
                  ltac:(discriminate) ltac:(discriminate))).
  split; reflexivity.
Defined.

(** Feedback reported for two different submissions has one Caliper
    template. *)
Lemma feedback_submission_reaches_xapi_only_witness :
  get "submission" (metadata DemoMore.commented_elsewhere)
  <> get "submission" (metadata Demo.commented)
  /\ CALIPER (snd (feedback_descriptor Demo.acme DemoMore.commented_elsewhere))
     = CALIPER (snd (feedback_descriptor Demo.acme Demo.commented)).
Proof.
  split; [discriminate|].
  destruct (@feedback_submission_reaches_xapi_only Demo.collaborators
              Demo.acme Demo.commented DemoMore.commented_elsewhere
              eq_refl eq_refl)
    as (_ & _ & _ & Hcaliper).
  exact Hcaliper.
Defined.

(** A grade out of zero has no scaled score, and its maximum is reported. *)
Lemma grade_never_divides_by_zero_witness :
  path ["score"; "scaled"]
    (get "result" (XAPI (snd (grade_descriptor Demo.acme
                                DemoMore.graded_out_of_zero))))
  = Some VNull
  /\ path ["score"; "max"]
       (get "result" (XAPI (snd (grade_descriptor Demo.acme
                                   DemoMore.graded_out_of_zero))))
     = Some (VNum 0).
Proof.
  destruct (proj1 (@grade_never_divides_by_zero Demo.collaborators
                     Demo.acme DemoMore.graded_out_of_zero) eq_refl)
    as (Hscaled & Hmax & _).
  split; assumption.
Defined.

(** A deadline and a maximum leave the xAPI template of an assignment as it
    was. *)
Lemma create_deadline_reaches_caliper_only_witness :
  get "due_at" (metadata DemoMore.created_with_deadline) = VDate 1701000000000
  /\ XAPI (snd (create_descriptor Demo.acme DemoMore.created_with_deadline))
     = XAPI (snd (create_descriptor Demo.acme Demo.created)).
Proof.
  split; [reflexivity|].
  destruct (create_deadline_reaches_caliper_only
              Demo.acme Demo.created DemoMore.created_with_deadline
              eq_refl eq_refl eq_refl eq_refl)
    as (Hxapi & _).
  exact Hxapi.
Defined.

(** Another assignment leaves the xAPI template of a grade as it was. *)
Lemma grade_formats_drop_different_fields_witness :
  get "assignment" (metadata DemoMore.graded_for_other_assignment)
  <> get "assignment" (metadata Demo.graded)
  /\ XAPI (snd (grade_descriptor Demo.acme DemoMore.graded_for_other_assignment))
     = XAPI (snd (grade_descriptor Demo.acme Demo.graded)).
Proof.
  split; [discriminate|].
  exact (proj1 (@grade_formats_drop_different_fields Demo.collaborators
                  Demo.acme Demo.graded DemoMore.graded_for_other_assignment
                  eq_refl eq_refl)
           eq_refl eq_refl).
Defined.

(** The view and the submission of the created assignment name it alike. *)
Lemma assignment_is_referenced_uniformly_witness :
  get "object" (XAPI (snd (submit_descriptor Demo.acme Demo.submitted)))
  = get "object" (XAPI (snd (view_descriptor Demo.acme Demo.viewed)))
  /\ get "object" (CALIPER (snd (submit_descriptor Demo.acme Demo.submitted)))
     = get "object" (CALIPER (snd (view_descriptor Demo.acme Demo.viewed))).
Proof.
  destruct (@assignment_is_referenced_uniformly Demo.collaborators
              Demo.acme Demo.created Demo.viewed Demo.submitted
              eq_refl eq_refl)
    as (_ & _ & Hxapi & _ & _ & Hcaliper & _).
  split; assumption.
Defined.

(** [submit] and [feedback] both declare [submission], and not alike. *)
Lemma rule_tables_agree_witness :
  In ("submission", {| type := string_t; required := false |}) submit_rules
  /\ In ("submission", {| type := uri_t; required := true |}) feedback_rules
  /\ {| type := string_t; required := false |}
     <> {| type := uri_t; required := true |}.
Proof.
  assert (Hsubmit : In ("submission", {| type := string_t; required := false |})
                       submit_rules) by (cbn; auto).
  assert (Hfeedback : In ("submission", {| type := uri_t; required := true |})
                         feedback_rules) by (cbn; auto).
  split; [exact Hsubmit|]. split; [exact Hfeedback|].
  intros Hsame.
  destruct (proj1 (proj1 (rule_tables_agree Submit Feedback "submission" _ _
                            Hsubmit Hfeedback))
              Hsame)
    as [Hop | Hk]; [discriminate Hop | exact (Hk eq_refl)].
Defined.

(** The grade and the submission of [Demo] speak of the same attempt. *)
Lemma submission_is_referenced_uniformly_witness :
  hd_error (derivations (trace (grade_descriptor Demo.acme Demo.graded)))
  = Some (VStr "acme", VERBS.SUBMITTED, [VStr "https://x/s1"])
  /\ hd_error (rendered_entities (trace (grade_descriptor Demo.acme Demo.graded)))
     = Some ([("type", VTerm (EntityType CaliperEntityType.ATTEMPT));
              ("id", VStr "https://x/s1")], []).
Proof.
  destruct (@submission_is_referenced_uniformly Demo.collaborators
              Demo.acme Demo.submitted Demo.graded eq_refl)
    as ((attributes & _ & Hobject & _) & Hderived).
  split; assumption.
Defined.

End CoverageScenarios.
